(** * Billing and payment reconciliation of the event hub

    A shallow embedding of the accounts page ([src/pages/Accounts.tsx]), of
    the tables of the initial schema migration that it reads and of the stall
    enquiry form ([src/pages/StallEnquiry.tsx]), with the properties of the
    reconciliation figures stated and proved over it.

    Numbers.  The page computes on JavaScript numbers that it receives as JSON
    renderings of [NUMERIC] columns.  They are modelled as rationals ([Q],
    compared with [==]); the rounding of binary64 arithmetic is outside the
    model.  The columns of the schema are [NUMERIC(p,s)]: what the storage
    layer keeps is rounded to [s] decimals, which the [Schema] module writes
    out. *)

From Stdlib Require Import QArith Qminmax Qabs Qround Lqa.
From Stdlib Require Import ZArith Lia Bool List String.
From Stdlib Require Import Permutation Sorted.
Import ListNotations.

Open Scope Q_scope.

(* ------------------------------------------------------------------ *)
(** ** The JavaScript operators the page uses *)

Module Js.

(** Truthiness of a number: every number but zero. *)
Definition truthy (q : Q) : bool := negb (Qeq_bool q 0).

(** [x || d] where [x] is a number. *)
Definition num_or (x d : Q) : Q := if truthy x then x else d.

(** [x || d] where [x] is an optional number: [undefined] and [null] are
    falsy, and so is the number zero. *)
Definition opt_or (x : option Q) (d : Q) : Q :=
  match x with
  | Some q => num_or q d
  | None => d
  end.

(** [s || d] where [s] is a string: the empty string is falsy. *)
Definition str_or (s d : string) : string :=
  if String.eqb s EmptyString then d else s.

(** [xs.reduce(f, init)] is a fold from the left. *)
Definition reduce {A B : Type} (f : B -> A -> B) (init : B) (xs : list A) : B :=
  fold_left f xs init.

(** [Math.max(a, b)]. *)
Definition max (a b : Q) : Q := Qmax a b.

(** [a > b]. *)
Definition gt (a b : Q) : bool := negb (Qle_bool a b).

End Js.

(* ------------------------------------------------------------------ *)
(** ** The accounts page *)

Module Accounts.

(** One entry of the [items] JSON array of a billing transaction, with the
    type the page gives it:
    [{ price?: number; quantity?: number; event_margin?: number }]. *)
Record LineItem := {
  price : option Q;
  quantity : option Q;
  event_margin : option Q
}.

(** The [items] column is JSONB: an array of line items, or something else. *)
Inductive Json :=
| JArray (elems : list LineItem)
| JOther.

Record BillingTransaction := {
  bt_stall_id : string;
  bt_items : Json;
  bt_total : Q
}.

Inductive payment_type := participant | other.

Definition payment_type_eqb (a b : payment_type) : bool :=
  match a, b with
  | participant, participant => true
  | other, other => true
  | _, _ => false
  end.

Record Payment := {
  pay_payment_type : payment_type;
  pay_stall_id : option string;
  pay_amount_paid : Q;
  pay_narration : option string
}.

Inductive registration_type :=
| stall_counter
| employment_booking
| employment_registration.

Definition registration_type_eqb (a b : registration_type) : bool :=
  match a, b with
  | stall_counter, stall_counter => true
  | employment_booking, employment_booking => true
  | employment_registration, employment_registration => true
  | _, _ => false
  end.

Record Registration := {
  reg_registration_type : registration_type;
  reg_amount : Q
}.

Record Stall := {
  st_id : string;
  st_counter_name : string;
  st_is_verified : option bool;
  st_registration_fee : option Q
}.

(** [p.stall_id === stallId] for a nullable column. *)
Definition stall_id_is (sid : option string) (stallId : string) : bool :=
  match sid with
  | Some s => String.eqb s stallId
  | None => false
  end.

(** *** The stalls query

    [from('stalls').select('*').eq('is_verified', true).order('counter_name')] *)

Fixpoint insert_by_name (s : Stall) (l : list Stall) : list Stall :=
  match l with
  | [] => [s]
  | x :: r =>
      if String.leb (st_counter_name s) (st_counter_name x)
      then s :: x :: r
      else x :: insert_by_name s r
  end.

Definition order_by_counter_name (l : list Stall) : list Stall :=
  fold_right insert_by_name [] l.

Definition verified (s : Stall) : bool :=
  match st_is_verified s with
  | Some true => true
  | _ => false
  end.

Definition stalls_query (table : list Stall) : list Stall :=
  order_by_counter_name (filter verified table).

(** *** [selectedStallDetails] *)

Record StallDetails := {
  billedAmount : Q;
  billBalance : Q;
  alreadyPaid : Q;
  remainingBalance : Q;
  stallName : string
}.

Definition itemBalance (item : LineItem) : Q :=
  let itemTotal := Js.opt_or (price item) 0 * Js.opt_or (quantity item) 1 in
  let commission := Js.opt_or (event_margin item) 20 in
  itemTotal * (1 - commission / 100).

Definition txBalance (tx : BillingTransaction) : Q :=
  let items := match bt_items tx with JArray l => l | JOther => [] end in
  Js.reduce (fun sum item => sum + itemBalance item) 0 items.

Definition stallTransactions (stallId : string)
    (billingTransactions : list BillingTransaction) : list BillingTransaction :=
  filter (fun t => String.eqb (bt_stall_id t) stallId) billingTransactions.

Definition stallParticipantPayments (stallId : string)
    (payments : list Payment) : list Payment :=
  filter (fun p => stall_id_is (pay_stall_id p) stallId
                   && payment_type_eqb (pay_payment_type p) participant)
         payments.

Definition computeBilledAmount (txs : list BillingTransaction) : Q :=
  Js.reduce (fun sum t => sum + Js.num_or (bt_total t) 0) 0 txs.

Definition computeBillBalance (txs : list BillingTransaction) : Q :=
  Js.reduce (fun txSum tx => txSum + txBalance tx) 0 txs.

Definition sumAmountPaid (ps : list Payment) : Q :=
  Js.reduce (fun sum p => sum + Js.num_or (pay_amount_paid p) 0) 0 ps.

Definition findStallName (stallId : string) (stalls : list Stall) : string :=
  match find (fun s => String.eqb (st_id s) stallId) stalls with
  | Some s => Js.str_or (st_counter_name s) "Unknown"
  | None => "Unknown"
  end.

Definition selectedStallDetails (stallId : string)
    (billingTransactions : list BillingTransaction)
    (payments : list Payment) (stalls : list Stall) : option StallDetails :=
  if String.eqb stallId EmptyString then None
  else
    let txs := stallTransactions stallId billingTransactions in
    let billed := computeBilledAmount txs in
    let balance := computeBillBalance txs in
    let paid := sumAmountPaid (stallParticipantPayments stallId payments) in
    let remaining := Js.max 0 (balance - paid) in
    Some {| billedAmount := billed;
            billBalance := balance;
            alreadyPaid := paid;
            remainingBalance := remaining;
            stallName := findStallName stallId stalls |}.

(** *** Event-wide totals *)

Definition totalBillingCollected (billingTransactions : list BillingTransaction) : Q :=
  Js.reduce (fun sum t => sum + Js.num_or (bt_total t) 0) 0 billingTransactions.

Definition totalRegistrationCollected (registrations : list Registration) : Q :=
  Js.reduce (fun sum r => sum + Js.num_or (reg_amount r) 0) 0
    (filter (fun r => negb (registration_type_eqb (reg_registration_type r) stall_counter))
            registrations).

Definition stallBookingFees (stalls : list Stall) : Q :=
  Js.reduce (fun sum s => sum + Js.opt_or (st_registration_fee s) 0) 0 stalls.

Definition totalCollected (billingTransactions : list BillingTransaction)
    (registrations : list Registration) (stalls : list Stall) : Q :=
  totalBillingCollected billingTransactions
  + totalRegistrationCollected registrations
  + stallBookingFees stalls.

Definition stallPaymentsTotal (payments : list Payment) : Q :=
  sumAmountPaid
    (filter (fun p => payment_type_eqb (pay_payment_type p) participant) payments).

Definition otherPaymentsTotal (payments : list Payment) : Q :=
  sumAmountPaid
    (filter (fun p => payment_type_eqb (pay_payment_type p) other) payments).

Definition totalPaid (payments : list Payment) : Q := otherPaymentsTotal payments.

Definition cashBalance (billingTransactions : list BillingTransaction)
    (registrations : list Registration) (stalls : list Stall)
    (payments : list Payment) : Q :=
  totalCollected billingTransactions registrations stalls - totalPaid payments.

End Accounts.

(* ------------------------------------------------------------------ *)
(** ** Recording a payment to a stall *)

Module PaymentForm.
Import Accounts.

(** The form state [stallPayment]: both fields are strings. *)
Record StallPayment := {
  stallId : string;
  amount : string
}.

(** The argument of [createPaymentMutation.mutate].  The amount is what
    [parseFloat] returned: a number, or [NaN] ([None]). *)
Record NewPayment := {
  np_payment_type : payment_type;
  np_stall_id : option string;
  np_amount_paid : option Q;
  np_narration : option string
}.

Inductive Toast :=
| toast_error (msg : string)
| toast_success (msg : string).

(** What a handler does: it reports an error and returns, or it calls the
    mutation. *)
Inductive Action :=
| Report (msg : string)
| Mutate (payment : NewPayment).

(** The page as the handler sees it: the form, the loaded collections, and
    the [payments] table behind the mutation. *)
Record Page := {
  stallPayment : StallPayment;
  billingTransactions : list BillingTransaction;
  payments : list Payment;
  stalls : list Stall;
  payments_table : list Payment;
  toasts : list Toast
}.

Section Handlers.

(** [parseFloat] of the browser; [None] stands for [NaN]. *)
Variable parseFloat : string -> option Q.

(** The insert of the storage layer: the table with the new row, or the
    message of the error it raised. *)
Variable storage_insert : NewPayment -> list Payment -> string + list Payment.

Definition details (pg : Page) : option StallDetails :=
  selectedStallDetails (stallId (stallPayment pg))
    (billingTransactions pg) (payments pg) (stalls pg).

(** [amount > remainingBalance]; a comparison with [NaN] is false. *)
Definition exceeds (a : option Q) (remaining : Q) : bool :=
  match a with
  | Some q => Js.gt q remaining
  | None => false
  end.

Definition handleStallPayment (pg : Page) : Action :=
  let form := stallPayment pg in
  if String.eqb (stallId form) EmptyString || String.eqb (amount form) EmptyString
  then Report "Please select a stall and enter amount"
  else
    let a := parseFloat (amount form) in
    let sel := details pg in
    if match sel with
       | Some d => exceeds a (remainingBalance d)
       | None => false
       end
    then Report "Amount exceeds remaining balance"
    else
      let name := match sel with
                  | Some d => stallName d
                  | None => "undefined"%string
                  end in
      Mutate {| np_payment_type := participant;
                np_stall_id := Some (stallId form);
                np_amount_paid := a;
                np_narration := Some ("Payment to " ++ name)%string |}.

Definition add_toast (t : Toast) (pg : Page) : Page :=
  {| stallPayment := stallPayment pg;
     billingTransactions := billingTransactions pg;
     payments := payments pg;
     stalls := stalls pg;
     payments_table := payments_table pg;
     toasts := t :: toasts pg |}.

(** [createPaymentMutation]: the insert, then [onSuccess] (the form is
    cleared) or [onError]. *)
Definition mutate (np : NewPayment) (pg : Page) : Page :=
  match storage_insert np (payments_table pg) with
  | inr table' =>
      {| stallPayment := {| stallId := EmptyString; amount := EmptyString |};
         billingTransactions := billingTransactions pg;
         payments := payments pg;
         stalls := stalls pg;
         payments_table := table';
         toasts := toast_success "Payment recorded!" :: toasts pg |}
  | inl message =>
      add_toast (toast_error ("Failed to record payment: " ++ message)%string) pg
  end.

(** A click on "Process Payment". *)
Definition clickProcessPayment (pg : Page) : Page :=
  match handleStallPayment pg with
  | Report msg => add_toast (toast_error msg) pg
  | Mutate np => mutate np pg
  end.

End Handlers.

End PaymentForm.

(* ------------------------------------------------------------------ *)
(** ** The [products] table

    [cost_price NUMERIC(10,2) NOT NULL],
    [event_margin NUMERIC(5,2) DEFAULT 20.00],
    [selling_price NUMERIC(10,2)
       GENERATED ALWAYS AS (cost_price * (1 + event_margin/100)) STORED]. *)

Module Schema.

(** The nearest integer, ties away from zero. *)
Definition round_half_away (x : Q) : Z :=
  (Z.sgn (Qnum x) * Qfloor (Qabs x + (1 # 2)))%Z.

Definition pow10 (n : nat) : Q := inject_Z (10 ^ Z.of_nat n).

(** Rounding to [s] decimals. *)
Definition round_scale (s : nat) (x : Q) : Q :=
  inject_Z (round_half_away (x * pow10 s)) / pow10 s.

(** Storing a value into a [NUMERIC(p,s)] column: it is rounded to the
    scale, and refused ([None], "numeric field overflow") when the rounded
    value needs more than [p] digits. *)
Definition numeric (p s : nat) (x : Q) : option Q :=
  let r := round_scale s x in
  if Js.gt (pow10 (p - s)) (Qabs r) then Some r else None.

Record Product := {
  id : nat;
  stall_id : string;
  item_name : string;
  cost_price : Q;
  event_margin : option Q;
  selling_price : option Q
}.

(** The generation expression; an operand that is [NULL] makes it [NULL]. *)
Definition selling_price_expr (cost : Q) (margin : option Q) : option Q :=
  match margin with
  | Some m => Some (cost * (1 + m / 100))
  | None => None
  end.

(** The value stored in the generated column: [None] when the statement
    fails on overflow, [Some v] otherwise ([v] itself may be [NULL]). *)
Definition generated_selling_price (cost : Q) (margin : option Q)
    : option (option Q) :=
  match selling_price_expr cost margin with
  | None => Some None
  | Some v =>
      match numeric 10 2 v with
      | Some r => Some (Some r)
      | None => None
      end
  end.

(** What a statement says about one column. *)
Inductive Assign (A : Type) :=
| DEFAULT                (* the column is left out, or given as DEFAULT *)
| VALUE (v : A).
Arguments DEFAULT {A}.
Arguments VALUE {A} v.

Record Insert := {
  ins_id : nat;
  ins_stall_id : string;
  ins_item_name : string;
  ins_cost_price : option Q;
  ins_event_margin : Assign (option Q);
  ins_selling_price : Assign (option Q)
}.

(** [UPDATE products SET ... WHERE cond]; [None] for a column that the
    [SET] list does not name. *)
Record Update := {
  upd_where : Product -> bool;
  upd_cost_price : option (option Q);
  upd_event_margin : option (Assign (option Q));
  upd_selling_price : option (Assign (option Q))
}.

Inductive Statement :=
| INSERT (i : Insert)
| UPDATE (u : Update)
| DELETE (cond : Product -> bool).

(** A nullable [NUMERIC(p,s)] column. *)
Definition numeric_null (p s : nat) (v : option Q) : option (option Q) :=
  match v with
  | None => Some None
  | Some x =>
      match numeric p s x with
      | Some r => Some (Some r)
      | None => None
      end
  end.

Definition event_margin_default : option Q := Some 20.

(** The row an insert builds, or [None] when it is refused: a generated
    column takes no value but DEFAULT. *)
Definition build_row (i : Insert) : option Product :=
  match ins_selling_price i with
  | VALUE _ => None                       (* not DEFAULT: refused *)
  | DEFAULT =>
      match ins_cost_price i with
      | None => None                      (* NOT NULL *)
      | Some c =>
          match numeric 10 2 c with
          | None => None
          | Some cost =>
              let margin_in := match ins_event_margin i with
                               | DEFAULT => event_margin_default
                               | VALUE v => v
                               end in
              match numeric_null 5 2 margin_in with
              | None => None
              | Some margin =>
                  match generated_selling_price cost margin with
                  | None => None
                  | Some sp =>
                      Some {| id := ins_id i;
                              stall_id := ins_stall_id i;
                              item_name := ins_item_name i;
                              cost_price := cost;
                              event_margin := margin;
                              selling_price := sp |}
                  end
              end
          end
      end
  end.

(** The new version of one row under an update, or [None] when it is
    refused. *)
Definition update_row (u : Update) (r : Product) : option Product :=
  let cost_in := match upd_cost_price u with
                 | Some v => v
                 | None => Some (cost_price r)
                 end in
  let margin_in := match upd_event_margin u with
                   | Some DEFAULT => event_margin_default
                   | Some (VALUE v) => v
                   | None => event_margin r
                   end in
  match cost_in with
  | None => None                          (* NOT NULL *)
  | Some c =>
      match numeric 10 2 c with
      | None => None
      | Some cost =>
          match numeric_null 5 2 margin_in with
          | None => None
          | Some margin =>
              match generated_selling_price cost margin with
              | None => None
              | Some sp =>
                  Some {| id := id r;
                          stall_id := stall_id r;
                          item_name := item_name r;
                          cost_price := cost;
                          event_margin := margin;
                          selling_price := sp |}
              end
          end
      end
  end.

(** All the rows the condition selects are rewritten, or none is. *)
Fixpoint update_rows (u : Update) (table : list Product) : option (list Product) :=
  match table with
  | [] => Some []
  | r :: rest =>
      match update_rows u rest with
      | None => None
      | Some rest' =>
          if upd_where u r
          then match update_row u r with
               | Some r' => Some (r' :: rest')
               | None => None
               end
          else Some (r :: rest')
      end
  end.

(** The table after a statement, or [None] when the statement fails (the
    table is then as it was). *)
Definition exec (st : Statement) (table : list Product) : option (list Product) :=
  match st with
  | INSERT i =>
      if existsb (fun r => Nat.eqb (id r) (ins_id i)) table then None
      else match build_row i with
           | Some r => Some (table ++ [r])
           | None => None
           end
  | UPDATE u =>
      match upd_selling_price u with
      | Some (VALUE _) => None            (* only DEFAULT is accepted *)
      | _ => update_rows u table
      end
  | DELETE cond => Some (filter (fun r => negb (cond r)) table)
  end.

Definition step (table : list Product) (st : Statement) : list Product :=
  match exec st table with
  | Some table' => table'
  | None => table
  end.

(** The table after a sequence of statements, started empty. *)
Definition run (sts : list Statement) : list Product :=
  fold_left step sts [].

End Schema.

(* ------------------------------------------------------------------ *)
(** ** The figures as the specification words them

    These definitions follow the specification, not the page; the theorems
    below compare the two. *)

Module Stated.
Import Accounts.

(** The sum of a collection of numbers. *)
Fixpoint Qsum (l : list Q) : Q :=
  match l with
  | [] => 0
  | x :: r => x + Qsum r
  end.

(** "margin is the line item's own stored margin percentage, defaulting to
    20 when absent". *)
Definition margin_of (m : option Q) : Q :=
  match m with
  | Some q => q
  | None => 20
  end.

(** "item_balance = price × quantity × (1 − margin/100)". *)
Definition item_balance (p q : Q) (m : option Q) : Q :=
  p * q * (1 - margin_of m / 100).

(** A number that may be missing, read as the number it holds. *)
Definition value_of (x : option Q) : Q :=
  match x with
  | Some q => q
  | None => 0
  end.

Definition item_balance_of (item : LineItem) : Q :=
  item_balance (value_of (price item)) (value_of (quantity item))
               (event_margin item).

Definition items_of (tx : BillingTransaction) : list LineItem :=
  match bt_items tx with
  | JArray l => l
  | JOther => []
  end.

(** "sum all item_balance across all line items across all transactions
    for the stall". *)
Definition bill_balance (stallId : string) (txs : list BillingTransaction) : Q :=
  Qsum (map (fun tx => Qsum (map item_balance_of (items_of tx)))
            (filter (fun t => String.eqb (bt_stall_id t) stallId) txs)).

(** A line item whose quantity is a number other than zero and whose margin,
    when it has one, is other than zero. *)
Definition regular (item : LineItem) : Prop :=
  (exists q, quantity item = Some q /\ ~ q == 0)
  /\ (forall m, event_margin item = Some m -> ~ m == 0).

(** A value the [||] operator replaces by its right operand. *)
Definition falsy (x : option Q) : Prop :=
  match x with
  | Some q => q == 0
  | None => True
  end.

Definition belongs_to (stallId : string) (p : Payment) : bool :=
  match pay_stall_id p with
  | Some s => String.eqb s stallId
  | None => false
  end.

Definition is_participant (p : Payment) : bool :=
  match pay_payment_type p with
  | participant => true
  | other => false
  end.

Definition is_other (p : Payment) : bool :=
  match pay_payment_type p with
  | participant => false
  | other => true
  end.

(** "already paid is the sum of amount_paid over payments of type
    participant for that stall". *)
Definition already_paid (stallId : string) (ps : list Payment) : Q :=
  Qsum (map pay_amount_paid
            (filter (fun p => belongs_to stallId p && is_participant p) ps)).

Definition is_stall_counter (r : Registration) : bool :=
  match reg_registration_type r with
  | stall_counter => true
  | _ => false
  end.

Definition fee_of (s : Stall) : Q := value_of (st_registration_fee s).

(** "the stored selling price always equals
    cost_price × (1 + event_margin/100)". *)
Definition selling_price_exact (r : Schema.Product) : Prop :=
  match Schema.event_margin r, Schema.selling_price r with
  | Some m, Some s => s == Schema.cost_price r * (1 + m / 100)
  | _, _ => False
  end.

(** The stored selling price is the value of the generation expression on
    the stored cost price and margin, as a [NUMERIC(10,2)]. *)
Definition selling_price_generated (r : Schema.Product) : Prop :=
  Schema.generated_selling_price (Schema.cost_price r) (Schema.event_margin r)
  = Some (Schema.selling_price r).

(** The same, written out: the selling price is the generation expression
    rounded to two decimals, hence within half a hundredth of it, and it is
    NULL when the margin is. *)
Definition generated_row (r : Schema.Product) : Prop :=
  match Schema.event_margin r with
  | Some m =>
      exists s,
        Schema.selling_price r = Some s
        /\ s = Schema.round_scale 2 (Schema.cost_price r * (1 + m / 100))
        /\ Schema.cost_price r * (1 + m / 100) - (1 # 200) <= s
           <= Schema.cost_price r * (1 + m / 100) + (1 # 200)
  | None => Schema.selling_price r = None
  end.

End Stated.

(* ------------------------------------------------------------------ *)
(** ** Sample rows *)

Module Samples.
Import Accounts.

(** One sale of stall S: a single line, price 100, quantity 1, margin 0. *)
Definition zero_margin_tx : BillingTransaction :=
  {| bt_stall_id := "S";
     bt_items := JArray [ {| price := Some 100;
                             quantity := Some 1;
                             event_margin := Some 0 |} ];
     bt_total := 100 |}.

(** The scenario of the specification: one sale of stall S with total 160
    and the line price 100, quantity 2, margin 20. *)
Definition scenario_tx : BillingTransaction :=
  {| bt_stall_id := "S";
     bt_items := JArray [ {| price := Some 100;
                             quantity := Some 2;
                             event_margin := Some 20 |} ];
     bt_total := 160 |}.

Definition payment_to (stallId : string) (a : Q) : Payment :=
  {| pay_payment_type := participant;
     pay_stall_id := Some stallId;
     pay_amount_paid := a;
     pay_narration := None |}.

Definition negative_payment : Payment := payment_to "S" (-5).

Definition unverified_stall : Stall :=
  {| st_id := "1";
     st_counter_name := "A";
     st_is_verified := Some false;
     st_registration_fee := Some 100 |}.

(** A [parseFloat] that reads the two numerals the examples type. *)
Definition parse_sample (s : string) : option Q :=
  if String.eqb s "50" then Some 50
  else if String.eqb s "200" then Some 200
  else None.

(** A storage layer that accepts every row with an amount. *)
Definition insert_sample (np : PaymentForm.NewPayment) (table : list Payment)
    : string + list Payment :=
  match PaymentForm.np_amount_paid np with
  | Some a =>
      inr (table ++ [ {| pay_payment_type := PaymentForm.np_payment_type np;
                         pay_stall_id := PaymentForm.np_stall_id np;
                         pay_amount_paid := a;
                         pay_narration := PaymentForm.np_narration np |} ])
  | None => inl "null value in column amount_paid"%string
  end.

Definition stall_S : Stall :=
  {| st_id := "S";
     st_counter_name := "Counter S";
     st_is_verified := Some true;
     st_registration_fee := Some 500 |}.

(** A product of one cent, with the default margin. *)
Definition one_cent_insert : Schema.Insert :=
  {| Schema.ins_id := 1%nat;
     Schema.ins_stall_id := "S";
     Schema.ins_item_name := "pin";
     Schema.ins_cost_price := Some (1 # 100);
     Schema.ins_event_margin := Schema.DEFAULT;
     Schema.ins_selling_price := Schema.DEFAULT |}.

(** A sale of another stall, with an [items] value that is not an array. *)
Definition other_stall_tx : BillingTransaction :=
  {| bt_stall_id := "T"; bt_items := JOther; bt_total := 10 |}.

(** A payment of type "other". *)
Definition expense (a : Q) : Payment :=
  {| pay_payment_type := other;
     pay_stall_id := None;
     pay_amount_paid := a;
     pay_narration := Some "tent"%string |}.

(** An insert that gives the selling price a value of its own. *)
Definition priced_insert : Schema.Insert :=
  {| Schema.ins_id := 2%nat;
     Schema.ins_stall_id := "S";
     Schema.ins_item_name := "cup";
     Schema.ins_cost_price := Some 10;
     Schema.ins_event_margin := Schema.DEFAULT;
     Schema.ins_selling_price := Schema.VALUE (Some 5) |}.

(** An update that sets the selling price of every row. *)
Definition priced_update : Schema.Update :=
  {| Schema.upd_where := fun _ => true;
     Schema.upd_cost_price := None;
     Schema.upd_event_margin := None;
     Schema.upd_selling_price := Some (Schema.VALUE (Some 5)) |}.

(** The page with stall S selected, the scenario loaded (bill balance 160,
    already paid 50) and an amount typed in. *)
Definition page_with_amount (typed : string) : PaymentForm.Page :=
  {| PaymentForm.stallPayment :=
       {| PaymentForm.stallId := "S"; PaymentForm.amount := typed |};
     PaymentForm.billingTransactions := [scenario_tx];
     PaymentForm.payments := [payment_to "S" 50];
     PaymentForm.stalls := [stall_S];
     PaymentForm.payments_table := [payment_to "S" 50];
     PaymentForm.toasts := [] |}.

End Samples.

(* ------------------------------------------------------------------ *)
(** ** The rest of the accounts page

    The list of collections, the payment section of the selected stall and
    the form of the other payments. *)

Module Ledger.
Import Accounts PaymentForm.

(** *** The list of collections

    The loaded rows with the columns the list reads beside the ones the
    totals read.  A [created_at] is held as the instant it denotes, in
    milliseconds ([new Date(s).getTime()]); [None] is NULL. *)

Record BillingRow := {
  b_tx : BillingTransaction;
  b_id : string;
  b_counter_name : option string;      (* the joined [stalls(counter_name)] *)
  b_created_at : option Z
}.

Record StallRow := {
  s_stall : Stall;
  s_created_at : option Z
}.

Record RegistrationRow := {
  r_reg : Registration;
  r_id : string;
  r_name : string;
  r_created_at : option Z
}.

Inductive collection_type := billing | stall_booking | registration.

Record Collection := {
  c_id : string;
  c_type : collection_type;
  c_category : string;
  c_description : string;
  c_amount : Q;
  c_date : option Z
}.

Definition of_billing (t : BillingRow) : Collection :=
  {| c_id := b_id t;
     c_type := billing;
     c_category := "Stall Billing";
     c_description := match b_counter_name t with
                      | Some n => Js.str_or n "Unknown Stall"
                      | None => "Unknown Stall"%string
                      end;
     c_amount := bt_total (b_tx t);
     c_date := b_created_at t |}.

(** [s.registration_fee && s.registration_fee > 0] *)
Definition has_fee (s : StallRow) : bool :=
  match st_registration_fee (s_stall s) with
  | Some f => Js.truthy f && Js.gt f 0
  | None => false
  end.

Definition of_stall (s : StallRow) : Collection :=
  {| c_id := st_id (s_stall s);
     c_type := stall_booking;
     c_category := "Stall Booking Fee";
     c_description := st_counter_name (s_stall s);
     c_amount := Js.opt_or (st_registration_fee (s_stall s)) 0;
     c_date := s_created_at s |}.

Definition not_stall_counter (r : RegistrationRow) : bool :=
  negb (registration_type_eqb (reg_registration_type (r_reg r)) stall_counter).

Definition of_registration (r : RegistrationRow) : Collection :=
  {| c_id := r_id r;
     c_type := registration;
     c_category :=
       if registration_type_eqb (reg_registration_type (r_reg r)) employment_booking
       then "Employment Booking"%string
       else "Employment Registration"%string;
     c_description := r_name r;
     c_amount := reg_amount (r_reg r);
     c_date := r_created_at r |}.

(** [new Date(date || 0).getTime()] *)
Definition time_of (c : Collection) : Z :=
  match c_date c with
  | Some ms => ms
  | None => 0%Z
  end.

(** The comparator of the sort: [(a, b) => time(b) - time(a)]. *)
Definition by_date_desc (a b : Collection) : Z := (time_of b - time_of a)%Z.

(** [Array.prototype.sort] is stable: an element stays before the ones it
    preceded unless the comparator puts it after them. *)
Fixpoint insert_sorted (cmp : Collection -> Collection -> Z)
    (x : Collection) (l : list Collection) : list Collection :=
  match l with
  | [] => [x]
  | y :: r =>
      if (cmp x y <=? 0)%Z then x :: y :: r
      else y :: insert_sorted cmp x r
  end.

Definition sort (cmp : Collection -> Collection -> Z)
    (l : list Collection) : list Collection :=
  fold_right (insert_sorted cmp) [] l.

(** The order the comparator asks for: newest first. *)
Definition not_older (a b : Collection) : Prop := (time_of b <= time_of a)%Z.

Definition collections (billingTransactions : list BillingRow)
    (stalls : list StallRow) (registrations : list RegistrationRow)
    : list Collection :=
  sort by_date_desc
    (map of_billing billingTransactions
     ++ map of_stall (filter has_fee stalls)
     ++ map of_registration (filter not_stall_counter registrations)).

(** *** The payment section of the selected stall *)



(** *** Other payments *)


Section Handlers.

Variable parseFloat : string -> option Q.
Variable storage_insert : NewPayment -> list Payment -> string + list Payment.



End Handlers.

(** *** Storing a payment

    [amount_paid NUMERIC(10,2) NOT NULL]: the row a successful insert adds
    holds the amount rounded to two decimals. *)




(** *** Line items in their usual range *)

(** [itemTotal] of the bill balance: price × quantity before commission. *)
Definition itemTotal (item : LineItem) : Q :=
  Js.opt_or (price item) 0 * Js.opt_or (quantity item) 1.


(** *** Sample rows *)



End Ledger.

(* ------------------------------------------------------------------ *)
(** ** Rows of the [products] table *)

Module Stored.
Import Schema.

(** A number with at most two decimals. *)
Definition two_decimals (x : Q) : Prop := exists k : Z, x = inject_Z k / pow10 2.

(** A value a [NUMERIC(10,2)] column can hold. *)
Definition in_numeric_10_2 (x : Q) : Prop :=
  two_decimals x /\ - (100000000) < x < 100000000.

(** A value a [NUMERIC(5,2)] column can hold. *)
Definition in_numeric_5_2 (x : Q) : Prop :=
  two_decimals x /\ - (1000) < x < 1000.

Definition typed_row (r : Product) : Prop :=
  in_numeric_10_2 (cost_price r)
  /\ (forall m, event_margin r = Some m -> in_numeric_5_2 m)
  /\ (forall s, selling_price r = Some s -> in_numeric_10_2 s).

(** A row that is stored again as it is when its own values are written
    back. *)
Definition settled_row (r : Product) : Prop :=
  numeric 10 2 (cost_price r) = Some (cost_price r)
  /\ numeric_null 5 2 (event_margin r) = Some (event_margin r)
  /\ generated_selling_price (cost_price r) (event_margin r)
     = Some (selling_price r).

(** An update that names no column but, at most, the selling price as
    DEFAULT. *)
Definition touch (cond : Product -> bool) (sp : option unit) : Update :=
  {| upd_where := cond;
     upd_cost_price := None;
     upd_event_margin := None;
     upd_selling_price := match sp with
                          | Some _ => Some DEFAULT
                          | None => None
                          end |}.

(** The row of [Samples.one_cent_insert] as it is stored. *)
Definition one_cent_row : Product :=
  {| id := 1%nat;
     stall_id := "S";
     item_name := "pin";
     cost_price := 1 # 100;
     event_margin := Some (2000 # 100);
     selling_price := Some (1 # 100) |}.

End Stored.

(* ------------------------------------------------------------------ *)
(** ** The timestamps of a product and the trigger on updates

    [created_at TIMESTAMPTZ DEFAULT now()], [updated_at TIMESTAMPTZ DEFAULT
    now()], and [update_products_updated_at BEFORE UPDATE ON public.products
    FOR EACH ROW EXECUTE FUNCTION public.update_updated_at_column()]. *)

Module Triggers.
Import Schema.

(** A row of [products] with its two timestamps, each the instant it denotes
    or NULL. *)
Record Stamped := {
  columns : Product;
  created_at : option Z;
  updated_at : option Z
}.

(** The statements with what they say about the timestamps.  The condition
    of an update or a delete may read every column: an update selects its
    rows with [cond], and the [upd_where] of its [Update] is not read. *)
Inductive Timed :=
| T_INSERT (i : Insert) (created updated : Assign (option Z))
| T_UPDATE (cond : Stamped -> bool) (u : Update)
           (created updated : option (Assign (option Z)))
| T_DELETE (cond : Stamped -> bool).

(** The value of a timestamp column; its default is [now()]. *)
Definition stamp (now : Z) (a : Assign (option Z)) : option Z :=
  match a with
  | DEFAULT => Some now
  | VALUE v => v
  end.

(** [update_updated_at_column]: [NEW.updated_at = now(); RETURN NEW]. *)
Definition update_updated_at_column (now : Z) (new : Stamped) : Stamped :=
  {| columns := columns new;
     created_at := created_at new;
     updated_at := Some now |}.

(** The new version of one row: the columns as [Schema.update_row] has
    them, the timestamps as the statement sets them, then the trigger. *)
Definition update_stamped (now : Z) (u : Update)
    (created updated : option (Assign (option Z))) (r : Stamped)
    : option Stamped :=
  match update_row u (columns r) with
  | Some c =>
      Some (update_updated_at_column now
              {| columns := c;
                 created_at := match created with
                               | Some a => stamp now a
                               | None => created_at r
                               end;
                 updated_at := match updated with
                               | Some a => stamp now a
                               | None => updated_at r
                               end |})
  | None => None
  end.

Fixpoint update_all (now : Z) (cond : Stamped -> bool) (u : Update)
    (created updated : option (Assign (option Z))) (table : list Stamped)
    : option (list Stamped) :=
  match table with
  | [] => Some []
  | r :: rest =>
      match update_all now cond u created updated rest with
      | None => None
      | Some rest' =>
          if cond r
          then match update_stamped now u created updated r with
               | Some r' => Some (r' :: rest')
               | None => None
               end
          else Some (r :: rest')
      end
  end.

(** The table after a statement run at the instant [now], or [None] when
    the statement fails. *)
Definition exec_at (now : Z) (st : Timed) (table : list Stamped)
    : option (list Stamped) :=
  match st with
  | T_INSERT i created updated =>
      if existsb (fun r => Nat.eqb (id (columns r)) (ins_id i)) table then None
      else match build_row i with
           | Some c => Some (table ++ [ {| columns := c;
                                           created_at := stamp now created;
                                           updated_at := stamp now updated |} ])
           | None => None
           end
  | T_UPDATE cond u created updated =>
      match upd_selling_price u with
      | Some (VALUE _) => None
      | _ => update_all now cond u created updated table
      end
  | T_DELETE cond => Some (filter (fun r => negb (cond r)) table)
  end.

Definition step_at (table : list Stamped) (st : Z * Timed) : list Stamped :=
  match exec_at (fst st) (snd st) table with
  | Some table' => table'
  | None => table
  end.

(** The table after a log of statements with their instants, started
    empty. *)
Definition run_at (log : list (Z * Timed)) : list Stamped :=
  fold_left step_at log [].

(** An update that names no column but, at most, the selling price as
    DEFAULT, on the rows a condition selects. *)
Definition touch_where (cond : Stamped -> bool) (sp : option unit) : Timed :=
  T_UPDATE cond (Stored.touch (fun r => true) sp) None None.

(** What the trigger leaves of such an update. *)
Definition touched (now : Z) (cond : Stamped -> bool) (r : Stamped) : Stamped :=
  if cond r then update_updated_at_column now r else r.

End Triggers.

(* ------------------------------------------------------------------ *)
(** ** Deleting a stall

    [products.stall_id] and [billing_transactions.stall_id] reference
    [stalls(id)] ON DELETE CASCADE, [payments.stall_id] references it
    ON DELETE SET NULL. *)

Module Cascade.
Import Accounts.

Record Database := {
  db_stalls : list Stall;
  db_products : list Schema.Product;
  db_billing_transactions : list BillingTransaction;
  db_payments : list Payment
}.

(** ON DELETE SET NULL on one payment. *)
Definition set_null (sid : string) (p : Payment) : Payment :=
  if stall_id_is (pay_stall_id p) sid
  then {| pay_payment_type := pay_payment_type p;
          pay_stall_id := None;
          pay_amount_paid := pay_amount_paid p;
          pay_narration := pay_narration p |}
  else p.

(** [DELETE FROM stalls WHERE id = sid], with the actions of the foreign
    keys. *)
Definition delete_stall (sid : string) (db : Database) : Database :=
  {| db_stalls := filter (fun s => negb (String.eqb (st_id s) sid)) (db_stalls db);
     db_products :=
       filter (fun p => negb (String.eqb (Schema.stall_id p) sid)) (db_products db);
     db_billing_transactions :=
       filter (fun t => negb (String.eqb (bt_stall_id t) sid))
              (db_billing_transactions db);
     db_payments := map (set_null sid) (db_payments db) |}.

Definition sample_db : Database :=
  {| db_stalls := [Samples.stall_S;
                   {| st_id := "T";
                      st_counter_name := "Counter T";
                      st_is_verified := Some true;
                      st_registration_fee := None |}];
     db_products := [];
     db_billing_transactions := [Samples.scenario_tx; Samples.other_stall_tx];
     db_payments := [Samples.payment_to "S" 50; Samples.payment_to "T" 10] |}.

End Cascade.

(* ------------------------------------------------------------------ *)
(** ** The stall enquiry form ([src/pages/StallEnquiry.tsx]) *)

Module Enquiry.

Record EnquiryField := {
  id : string;
  field_label : string;
  field_type : string;
  options : option (list string);
  is_required : bool;
  display_order : Z;
  show_conditional_on : option string;
  conditional_value : option string
}.

(** [responses : Record<string, string>]: an object with the identifiers of
    the fields as its keys, each key at most once, in the order they were
    first assigned. *)
Definition Responses := list (string * string).

(** [responses[key]]; [None] is [undefined]. *)
Fixpoint lookup (key : string) (r : Responses) : option string :=
  match r with
  | [] => None
  | (k, v) :: rest => if String.eqb k key then Some v else lookup key rest
  end.

(** [{ ...prev, [fieldId]: value }] *)
Fixpoint assign (fieldId value : string) (prev : Responses) : Responses :=
  match prev with
  | [] => [(fieldId, value)]
  | (k, v) :: rest =>
      if String.eqb k fieldId then (k, value) :: rest
      else (k, v) :: assign fieldId value rest
  end.

Definition handleResponseChange (fieldId value : string) (responses : Responses)
    : Responses :=
  assign fieldId value responses.

(** [a === b] for [a : string | undefined] and [b : string | null]. *)
Definition strict_eq (a b : option string) : bool :=
  match a, b with
  | Some x, Some y => String.eqb x y
  | _, _ => false
  end.

(** A string or [null]/[undefined] that is falsy. *)
Definition blank (x : option string) : bool :=
  match x with
  | Some s => String.eqb s EmptyString
  | None => true
  end.

Definition shouldShowField (responses : Responses) (field : EnquiryField) : bool :=
  if blank (show_conditional_on field) then true
  else
    match show_conditional_on field with
    | Some key => strict_eq (lookup key responses) (conditional_value field)
    | None => true
    end.

(** The state of the form. *)
Record Form := {
  name : string;
  mobile : string;
  selectedPanchayath : string;
  selectedWard : string;
  responses : Responses
}.

(** The row [submitMutation] inserts. *)
Record EnquiryRow := {
  row_name : string;
  row_mobile : string;
  row_panchayath_id : option string;
  row_ward_id : option string;
  row_responses : Responses
}.

(** What [handleSubmit] does: one of its toasts, or the mutation. *)
Inductive Outcome :=
| AskName
| AskMobile
| AskPanchayath
| AskWard
| AskField (label : string)
| Submit (row : EnquiryRow).

(** [field.is_required && shouldShowField(field) && !responses[field.id]] *)
Definition unanswered (rs : Responses) (field : EnquiryField) : bool :=
  is_required field && shouldShowField rs field && blank (lookup (id field) rs).

(** [x || null] *)
Definition or_null (x : string) : option string :=
  if String.eqb x EmptyString then None else Some x.

Section Submit.

(** [String.prototype.trim] and [String.prototype.length] of the browser. *)
Variable trim : string -> string.
Variable length : string -> nat.

(** The loop over the fields: the first unanswered one is reported. *)
Fixpoint checkRequired (rs : Responses) (fields : list EnquiryField)
    : option string :=
  match fields with
  | [] => None
  | field :: rest =>
      if unanswered rs field then Some (field_label field)
      else checkRequired rs rest
  end.

Definition handleSubmit (fields : list EnquiryField) (f : Form) : Outcome :=
  if String.eqb (trim (name f)) EmptyString then AskName
  else if String.eqb (trim (mobile f)) EmptyString || Nat.ltb (length (mobile f)) 10
  then AskMobile
  else if String.eqb (selectedPanchayath f) EmptyString then AskPanchayath
  else if String.eqb (selectedWard f) EmptyString then AskWard
  else
    match checkRequired (responses f) fields with
    | Some label => AskField label
    | None =>
        Submit {| row_name := name f;
                  row_mobile := mobile f;
                  row_panchayath_id := or_null (selectedPanchayath f);
                  row_ward_id := or_null (selectedWard f);
                  row_responses := responses f |}
    end.

End Submit.

(** *** Sample fields *)

Definition has_stall : EnquiryField :=
  {| id := "f1"; field_label := "Had a stall before?"; field_type := "radio";
     options := Some ["yes"; "no"]%string; is_required := true;
     display_order := 1; show_conditional_on := None;
     conditional_value := None |}.

Definition which_year : EnquiryField :=
  {| id := "f2"; field_label := "Which year?"; field_type := "text";
     options := None; is_required := true;
     display_order := 2; show_conditional_on := Some "f1"%string;
     conditional_value := Some "yes"%string |}.

Definition sample_form (rs : Responses) : Form :=
  {| name := "Asha"; mobile := "9876543210";
     selectedPanchayath := "p1"; selectedWard := "w1";
     responses := rs |}.

End Enquiry.

(* ------------------------------------------------------------------ *)
(** ** The bill balance with the values a line item counts with

    These definitions follow the words "a line item whose price is falsy
    contributes with price 0, one whose quantity is falsy is treated as
    quantity 1, one whose margin is falsy is treated as margin 20, and a
    transaction whose items field is not an array contributes 0"; the
    theorem compares them with the bill balance of the page. *)

Module Counted.
Import Accounts.

(** A sum taken from left to right, starting from 0. *)
Definition sum_in_order (l : list Q) : Q := fold_left Qplus l 0.

Definition price_counted (item : LineItem) : Q :=
  match price item with
  | Some p => if Qeq_bool p 0 then 0 else p
  | None => 0
  end.

Definition quantity_counted (item : LineItem) : Q :=
  match quantity item with
  | Some q => if Qeq_bool q 0 then 1 else q
  | None => 1
  end.

Definition margin_counted (item : LineItem) : Q :=
  match event_margin item with
  | Some m => if Qeq_bool m 0 then 20 else m
  | None => 20
  end.

(** What one line item adds. *)
Definition line_balance (item : LineItem) : Q :=
  price_counted item * quantity_counted item * (1 - margin_counted item / 100).

(** The line items a transaction counts with. *)
Definition lines_counted (tx : BillingTransaction) : list LineItem :=
  match bt_items tx with
  | JArray l => l
  | JOther => []
  end.

(** What one transaction adds. *)
Definition transaction_balance (tx : BillingTransaction) : Q :=
  sum_in_order (map line_balance (lines_counted tx)).

(** The bill balance of a stall: over its transactions in the order they are
    loaded, over the line items of each in their order. *)
Definition bill_balance_counted (stallId : string)
    (txs : list BillingTransaction) : Q :=
  sum_in_order
    (map transaction_balance
         (filter (fun t => String.eqb (bt_stall_id t) stallId) txs)).

(** Two sales of stall S: lines with a falsy price, a falsy quantity and a
    falsy margin, and a transaction whose items are not an array. *)
Definition falsy_lines_tx : BillingTransaction :=
  {| bt_stall_id := "S";
     bt_items :=
       JArray [ {| price := None; quantity := Some 3; event_margin := Some 10 |};
                {| price := Some 100; quantity := Some 0; event_margin := Some 10 |};
                {| price := Some 100; quantity := Some 3; event_margin := Some 0 |} ];
     bt_total := 700 |}.

Definition no_array_tx : BillingTransaction :=
  {| bt_stall_id := "S"; bt_items := JOther; bt_total := 10 |}.

End Counted.

(* ------------------------------------------------------------------ *)
(** ** Sums and the [||] operator *)

Module SumFacts.
Import Stated.

Lemma num_or_zero (x : Q) : Js.num_or x 0 == x.
Proof.
  unfold Js.num_or, Js.truthy.
  destruct (Qeq_bool x 0) eqn:E; simpl.
  - apply Qeq_bool_iff in E. now rewrite E.
  - reflexivity.
Qed.

Lemma opt_or_zero (x : option Q) : Js.opt_or x 0 == value_of x.
Proof. destruct x; simpl; [apply num_or_zero | reflexivity]. Qed.

Lemma num_or_truthy (x d : Q) : ~ x == 0 -> Js.num_or x d = x.
Proof.
  intros H. unfold Js.num_or, Js.truthy.
  destruct (Qeq_bool x 0) eqn:E; simpl; [|reflexivity].
  apply Qeq_bool_iff in E. contradiction.
Qed.

Lemma num_or_falsy (x d : Q) : x == 0 -> Js.num_or x d = d.
Proof.
  intros H. unfold Js.num_or, Js.truthy.
  apply Qeq_bool_iff in H. now rewrite H.
Qed.

Lemma opt_or_falsy (x : option Q) (d : Q) : falsy x -> Js.opt_or x d = d.
Proof.
  destruct x as [q|]; simpl; intros H; [now apply num_or_falsy | reflexivity].
Qed.

(** A [reduce] that adds [f x] for every element is the start value plus
    the sum of the [f x]. *)
Lemma reduce_sum {A : Type} (f : A -> Q) (l : list A) (a : Q) :
  Js.reduce (fun sum x => sum + f x) a l == a + Qsum (map f l).
Proof.
  unfold Js.reduce. revert a.
  induction l as [|x l IH]; intros a; simpl.
  - ring.
  - rewrite IH. ring.
Qed.

Lemma Qsum_ext {A : Type} (f g : A -> Q) (l : list A) :
  (forall x, f x == g x) -> Qsum (map f l) == Qsum (map g l).
Proof.
  intros H. induction l as [|x l IH]; simpl.
  - reflexivity.
  - rewrite IH, (H x). reflexivity.
Qed.

Lemma Qsum_app (l1 l2 : list Q) : Qsum (l1 ++ l2) == Qsum l1 + Qsum l2.
Proof.
  induction l1 as [|x l1 IH]; simpl.
  - ring.
  - rewrite IH. ring.
Qed.

Lemma Qsum_perm (l1 l2 : list Q) : Permutation l1 l2 -> Qsum l1 == Qsum l2.
Proof.
  induction 1; simpl.
  - reflexivity.
  - now rewrite IHPermutation.
  - ring.
  - now rewrite IHPermutation1.
Qed.

Lemma Qsum_nonneg (l : list Q) : Forall (fun x => 0 <= x) l -> 0 <= Qsum l.
Proof.
  induction 1; simpl; [apply Qle_refl | lra].
Qed.

Lemma filter_ext_bool {A : Type} (f g : A -> bool) (l : list A) :
  (forall x, f x = g x) -> filter f l = filter g l.
Proof. intros H. apply filter_ext. exact H. Qed.

End SumFacts.

(* ------------------------------------------------------------------ *)
(** ** The per-stall and event-wide figures *)

Module Reconciliation.
Import Accounts Stated SumFacts.

Lemma stallParticipantPayments_stated (stallId : string) (ps : list Payment) :
  stallParticipantPayments stallId ps
  = filter (fun p => belongs_to stallId p && is_participant p) ps.
Proof.
  unfold stallParticipantPayments. apply filter_ext_bool. intros p.
  unfold stall_id_is, belongs_to, is_participant, payment_type_eqb.
  destruct (pay_stall_id p), (pay_payment_type p); reflexivity.
Qed.

Lemma sumAmountPaid_sum (ps : list Payment) :
  sumAmountPaid ps == Qsum (map pay_amount_paid ps).
Proof.
  unfold sumAmountPaid. rewrite reduce_sum, Qplus_0_l.
  apply Qsum_ext. intros p. apply num_or_zero.
Qed.

Lemma alreadyPaid_stated (stallId : string) (ps : list Payment) :
  sumAmountPaid (stallParticipantPayments stallId ps) == already_paid stallId ps.
Proof.
  rewrite sumAmountPaid_sum, stallParticipantPayments_stated. reflexivity.
Qed.

(** A stall is selected exactly when its identifier is not the empty
    string; the details are then the five figures. *)
Lemma selected_some (stallId : string) txs ps stalls :
  stallId <> EmptyString ->
  selectedStallDetails stallId txs ps stalls
  = Some {| billedAmount := computeBilledAmount (stallTransactions stallId txs);
            billBalance := computeBillBalance (stallTransactions stallId txs);
            alreadyPaid := sumAmountPaid (stallParticipantPayments stallId ps);
            remainingBalance :=
              Js.max 0 (computeBillBalance (stallTransactions stallId txs)
                        - sumAmountPaid (stallParticipantPayments stallId ps));
            stallName := findStallName stallId stalls |}.
Proof.
  intros H. unfold selectedStallDetails.
  destruct (String.eqb_spec stallId EmptyString); [contradiction | reflexivity].
Qed.

Lemma max0_cases (x : Q) :
  (x <= 0 /\ Js.max 0 x == 0) \/ (0 < x /\ Js.max 0 x == x).
Proof.
  unfold Js.max.
  destruct (Q.max_spec 0 x) as [[H E]|[H E]].
  - right. split; [exact H | exact E].
  - left. split; [exact H | exact E].
Qed.

Lemma max0_mono (x y : Q) : x <= y -> Js.max 0 x <= Js.max 0 y.
Proof.
  intros H.
  destruct (max0_cases x) as [[Hx Ex]|[Hx Ex]];
    destruct (max0_cases y) as [[Hy Ey]|[Hy Ey]];
    rewrite Ex, Ey; lra.
Qed.

(** C2.  For a selected stall the remaining balance is
    max(0, bill balance - already paid), where already paid is the sum of
    [amount_paid] over the participant payments of the stall: it is never
    negative, it is 0 as soon as already paid reaches the bill balance, and
    it is the difference otherwise. *)
Theorem C2_remaining_balance (stallId : string) txs ps stalls :
  stallId <> EmptyString ->
  exists d,
    selectedStallDetails stallId txs ps stalls = Some d
    /\ alreadyPaid d == already_paid stallId ps
    /\ remainingBalance d == Qmax 0 (billBalance d - alreadyPaid d)
    /\ 0 <= remainingBalance d
    /\ (billBalance d <= alreadyPaid d -> remainingBalance d == 0)
    /\ (alreadyPaid d < billBalance d ->
        remainingBalance d == billBalance d - alreadyPaid d).
Proof.
  intros H. eexists. split; [apply (selected_some _ _ _ _ H)|]. simpl.
  split; [apply alreadyPaid_stated|].
  split; [reflexivity|].
  set (b := computeBillBalance _). set (a := sumAmountPaid _).
  destruct (max0_cases (b - a)) as [[Hx Ex]|[Hx Ex]]; rewrite Ex;
    repeat split; intros; lra.
Qed.

Lemma filter_insert_true {A : Type} (f : A -> bool) (l1 l2 : list A) (x : A) :
  f x = true -> filter f (l1 ++ x :: l2) = filter f l1 ++ x :: filter f l2.
Proof. intros H. rewrite filter_app. simpl. now rewrite H. Qed.

Lemma filter_insert_false {A : Type} (f : A -> bool) (l1 l2 : list A) (x : A) :
  f x = false -> filter f (l1 ++ x :: l2) = filter f (l1 ++ l2).
Proof. intros H. rewrite !filter_app. simpl. now rewrite H. Qed.

(** One more participant payment of a stall, wherever it stands in the
    collection, adds its amount to what the stall was already paid. *)
Lemma already_paid_insert (stallId : string) (l1 l2 : list Payment) (p : Payment) :
  pay_stall_id p = Some stallId ->
  pay_payment_type p = participant ->
  already_paid stallId (l1 ++ p :: l2)
  == already_paid stallId (l1 ++ l2) + pay_amount_paid p.
Proof.
  intros Hs Ht. unfold already_paid.
  rewrite filter_insert_true.
  - rewrite filter_app, !map_app, !Qsum_app. simpl. ring.
  - unfold belongs_to, is_participant. rewrite Hs, Ht, String.eqb_refl.
    reflexivity.
Qed.

Lemma remaining_insert_le (stallId : string) txs stalls l1 l2 p :
  stallId <> EmptyString ->
  pay_stall_id p = Some stallId ->
  pay_payment_type p = participant ->
  0 <= pay_amount_paid p ->
  exists before after,
    selectedStallDetails stallId txs (l1 ++ l2) stalls = Some before
    /\ selectedStallDetails stallId txs (l1 ++ p :: l2) stalls = Some after
    /\ remainingBalance after <= remainingBalance before.
Proof.
  intros H Hs Ht Hp. do 2 eexists.
  split; [apply (selected_some _ _ _ _ H)|].
  split; [apply (selected_some _ _ _ _ H)|]. simpl.
  apply max0_mono.
  rewrite !alreadyPaid_stated, (already_paid_insert _ _ _ _ Hs Ht). lra.
Qed.

(** C6.  Appending one participant payment of the stall, with an amount
    that is not negative, does not increase the remaining balance of the
    stall. *)
Theorem C6_payment_never_increases_remaining (stallId : string) txs ps stalls p :
  stallId <> EmptyString ->
  pay_stall_id p = Some stallId ->
  pay_payment_type p = participant ->
  0 <= pay_amount_paid p ->
  exists before after,
    selectedStallDetails stallId txs ps stalls = Some before
    /\ selectedStallDetails stallId txs (ps ++ [p]) stalls = Some after
    /\ remainingBalance after <= remainingBalance before.
Proof.
  intros H Hs Ht Hp.
  destruct (remaining_insert_le stallId txs stalls ps [] p H Hs Ht Hp)
    as (b & a & Hb & Ha & Hle).
  rewrite app_nil_r in Hb. exists b, a. auto.
Qed.

Lemma otherPaymentsTotal_stated (ps : list Payment) :
  otherPaymentsTotal ps == Qsum (map pay_amount_paid (filter is_other ps)).
Proof.
  unfold otherPaymentsTotal. rewrite sumAmountPaid_sum.
  replace (filter (fun p => payment_type_eqb (pay_payment_type p) other) ps)
    with (filter is_other ps); [reflexivity|].
  apply filter_ext_bool. intros p. unfold is_other.
  destruct (pay_payment_type p); reflexivity.
Qed.

(** C4.  The event-wide total paid is the sum of [amount_paid] over the
    payments of type "other"; a payment of type "participant" changes
    nothing in it, wherever it stands; and the cash balance is the total
    collected minus this total paid. *)
Theorem C4_total_paid_other_only txs regs stalls (ps : list Payment) :
  totalPaid ps == Qsum (map pay_amount_paid (filter is_other ps))
  /\ (forall l1 l2 p, ps = l1 ++ p :: l2 ->
        pay_payment_type p = participant ->
        totalPaid ps == totalPaid (l1 ++ l2))
  /\ totalPaid ps == totalPaid (filter is_other ps)
  /\ cashBalance txs regs stalls ps
     == totalCollected txs regs stalls
        - Qsum (map pay_amount_paid (filter is_other ps)).
Proof.
  unfold cashBalance, totalPaid. repeat split.
  - apply otherPaymentsTotal_stated.
  - intros l1 l2 p -> Ht. rewrite !otherPaymentsTotal_stated.
    rewrite filter_insert_false; [reflexivity|].
    unfold is_other. now rewrite Ht.
  - rewrite !otherPaymentsTotal_stated.
    assert (E : filter is_other (filter is_other ps) = filter is_other ps).
    { induction ps as [|p l IH]; simpl; [reflexivity|].
      destruct (is_other p) eqn:Ep; simpl; [rewrite Ep, IH|]; auto. }
    now rewrite E.
  - rewrite otherPaymentsTotal_stated. reflexivity.
Qed.

Lemma totalBillingCollected_stated (txs : list BillingTransaction) :
  totalBillingCollected txs == Qsum (map bt_total txs).
Proof.
  unfold totalBillingCollected. rewrite reduce_sum, Qplus_0_l.
  apply Qsum_ext. intros t. apply num_or_zero.
Qed.

Lemma totalRegistrationCollected_stated (regs : list Registration) :
  totalRegistrationCollected regs
  == Qsum (map reg_amount (filter (fun r => negb (is_stall_counter r)) regs)).
Proof.
  unfold totalRegistrationCollected. rewrite reduce_sum, Qplus_0_l.
  replace (filter (fun r => negb (registration_type_eqb
                                    (reg_registration_type r) stall_counter)) regs)
    with (filter (fun r => negb (is_stall_counter r)) regs).
  - apply Qsum_ext. intros r. apply num_or_zero.
  - apply filter_ext_bool. intros r. unfold is_stall_counter.
    destruct (reg_registration_type r); reflexivity.
Qed.

Lemma stallBookingFees_stated (stalls : list Stall) :
  stallBookingFees stalls == Qsum (map fee_of stalls).
Proof.
  unfold stallBookingFees. rewrite reduce_sum, Qplus_0_l.
  apply Qsum_ext. intros s. apply opt_or_zero.
Qed.

(** C5.  The total collected is the billing total plus the registration
    total plus the stall booking fees, where the billing total is the sum
    of [total] over all billing transactions and the registration total is
    the sum of [amount] over the registrations that are not stall-counter
    bookings. *)
Theorem C5_total_collected txs regs stalls :
  totalCollected txs regs stalls
  = totalBillingCollected txs + totalRegistrationCollected regs
    + stallBookingFees stalls
  /\ totalBillingCollected txs == Qsum (map bt_total txs)
  /\ totalRegistrationCollected regs
     == Qsum (map reg_amount (filter (fun r => negb (is_stall_counter r)) regs))
  /\ totalCollected txs regs stalls
     == Qsum (map bt_total txs)
        + Qsum (map reg_amount (filter (fun r => negb (is_stall_counter r)) regs))
        + stallBookingFees stalls.
Proof.
  split; [reflexivity|].
  split; [apply totalBillingCollected_stated|].
  split; [apply totalRegistrationCollected_stated|].
  unfold totalCollected.
  rewrite totalBillingCollected_stated, totalRegistrationCollected_stated.
  reflexivity.
Qed.

(** The scenario of the specification: billed 160, bill balance 160,
    already paid 50, remaining balance 110. *)
Example scenario_figures :
  exists d,
    selectedStallDetails "S" [Samples.scenario_tx]
      [Samples.payment_to "S" 50] [Samples.stall_S] = Some d
    /\ billedAmount d == 160
    /\ billBalance d == 160
    /\ alreadyPaid d == 50
    /\ remainingBalance d == 110
    /\ stallName d = "Counter S"%string.
Proof.
  eexists. split; [reflexivity|]. repeat split.
Qed.

(** *** The bill balance, item by item *)

Lemma txBalance_sum (tx : BillingTransaction) :
  txBalance tx == Qsum (map itemBalance (items_of tx)).
Proof.
  unfold txBalance, items_of. rewrite reduce_sum. ring.
Qed.

Lemma computeBillBalance_sum (txs : list BillingTransaction) :
  computeBillBalance txs
  == Qsum (map (fun tx => Qsum (map itemBalance (items_of tx))) txs).
Proof.
  unfold computeBillBalance. rewrite reduce_sum, Qplus_0_l.
  apply Qsum_ext. intros tx. apply txBalance_sum.
Qed.

(** On a line item whose quantity is a number other than zero and whose
    margin is absent or other than zero, the page computes the stated
    price × quantity × (1 − margin/100). *)
Lemma itemBalance_regular (item : LineItem) :
  regular item -> itemBalance item == item_balance_of item.
Proof.
  intros [(q & Hq & Hq0) Hm].
  unfold itemBalance, item_balance_of, item_balance.
  rewrite Hq. simpl. rewrite (num_or_truthy q 1 Hq0), opt_or_zero.
  destruct (event_margin item) as [m|] eqn:Em; simpl.
  - rewrite (num_or_truthy m 20 (Hm m eq_refl)). reflexivity.
  - reflexivity.
Qed.

Lemma Qsum_ext_in {A : Type} (f g : A -> Q) (l : list A) :
  (forall x, In x l -> f x == g x) -> Qsum (map f l) == Qsum (map g l).
Proof.
  induction l as [|x l IH]; intros H; simpl.
  - reflexivity.
  - rewrite IH, (H x).
    + reflexivity.
    + now left.
    + intros y Hy. apply H. now right.
Qed.

(** The margin is applied line by line: when every line item of the
    stall's transactions is regular, the bill balance is the stated sum. *)
Lemma billBalance_regular (stallId : string) txs ps stalls :
  stallId <> EmptyString ->
  (forall tx item, In tx txs -> bt_stall_id tx = stallId ->
                   In item (items_of tx) -> regular item) ->
  exists d,
    selectedStallDetails stallId txs ps stalls = Some d
    /\ billBalance d == bill_balance stallId txs.
Proof.
  intros H Hreg. eexists. split; [apply (selected_some _ _ _ _ H)|]. simpl.
  rewrite computeBillBalance_sum. unfold bill_balance, stallTransactions.
  apply Qsum_ext_in. intros tx Htx. apply filter_In in Htx as [Hin Hs].
  apply String.eqb_eq in Hs.
  apply Qsum_ext_in. intros item Hitem. apply itemBalance_regular.
  eapply Hreg; eauto.
Qed.

(** C1.  A line item that stores the margin 0 is charged the default
    commission of 20: for one transaction with the single line item
    price 100, quantity 1, margin 0, the page computes the bill balance 80,
    where the stated sum is 100. *)
Theorem C1_stored_zero_margin_replaced_by_default :
  exists d,
    selectedStallDetails "S" [Samples.zero_margin_tx] [] [] = Some d
    /\ billBalance d == 80
    /\ bill_balance "S" [Samples.zero_margin_tx] == 100
    /\ ~ billBalance d == bill_balance "S" [Samples.zero_margin_tx].
Proof.
  eexists. split; [reflexivity|].
  repeat split; vm_compute; congruence.
Qed.

(** *** A stall without billing transactions *)

Lemma stallTransactions_none (stallId : string) txs :
  (forall t, In t txs -> bt_stall_id t <> stallId) ->
  stallTransactions stallId txs = [].
Proof.
  intros H. unfold stallTransactions.
  induction txs as [|t l IH]; simpl; [reflexivity|].
  destruct (String.eqb_spec (bt_stall_id t) stallId) as [E|E].
  - exfalso. apply (H t); [now left | exact E].
  - apply IH. intros u Hu. apply H. now right.
Qed.

(** C7, as the page has it.  For a selected stall with no billing
    transaction, the billed amount and the bill balance are 0 and the
    remaining balance is max(0, − already paid): it is 0 whenever the
    participant payments of the stall do not sum to a negative amount, in
    particular when no payment has a negative amount. *)
Theorem C7_no_transactions (stallId : string) txs ps stalls :
  stallId <> EmptyString ->
  (forall t, In t txs -> bt_stall_id t <> stallId) ->
  exists d,
    selectedStallDetails stallId txs ps stalls = Some d
    /\ billedAmount d == 0
    /\ billBalance d == 0
    /\ remainingBalance d == Qmax 0 (- already_paid stallId ps)
    /\ (0 <= already_paid stallId ps -> remainingBalance d == 0)
    /\ (Forall (fun p => 0 <= pay_amount_paid p) ps -> remainingBalance d == 0).
Proof.
  intros H Hno. eexists. split; [apply (selected_some _ _ _ _ H)|]. simpl.
  rewrite (stallTransactions_none _ _ Hno). 
  split; [reflexivity|]. split; [reflexivity|].
  change (computeBillBalance []) with 0.
  assert (Hmax : Js.max 0 (0 - sumAmountPaid (stallParticipantPayments stallId ps))
                 == Qmax 0 (- already_paid stallId ps)).
  { unfold Js.max. apply Q.max_compat; [reflexivity|].
    rewrite alreadyPaid_stated. ring. }
  assert (Hzero : 0 <= already_paid stallId ps ->
                  Js.max 0 (0 - sumAmountPaid (stallParticipantPayments stallId ps)) == 0).
  { intros Hp. rewrite Hmax.
    destruct (max0_cases (- already_paid stallId ps)) as [[Hx Ex]|[Hx Ex]];
      unfold Js.max in Ex; rewrite Ex; lra. }
  split; [exact Hmax|]. split; [exact Hzero|].
  intros Hall. apply Hzero. unfold already_paid. apply Qsum_nonneg.
  apply Forall_forall. intros x Hx. apply in_map_iff in Hx as (p & <- & Hp).
  apply filter_In in Hp as [Hp _].
  rewrite Forall_forall in Hall. now apply Hall.
Qed.

(** C7 as stated fails: with no billing transaction and one participant
    payment of −5 for the stall, the remaining balance is 5. *)
Lemma C7_negative_payment_counterexample :
  exists d,
    selectedStallDetails "S" [] [Samples.negative_payment] [] = Some d
    /\ remainingBalance d == 5
    /\ ~ remainingBalance d == 0.
Proof.
  eexists. split; [reflexivity|].
  split; vm_compute; congruence.
Qed.

(** *** The stall booking fees *)

Lemma insert_by_name_perm (s : Stall) (l : list Stall) :
  Permutation (s :: l) (insert_by_name s l).
Proof.
  induction l as [|x l IH]; simpl.
  - apply Permutation_refl.
  - destruct (String.leb (st_counter_name s) (st_counter_name x)).
    + apply Permutation_refl.
    + eapply perm_trans; [apply perm_swap|]. now apply perm_skip.
Qed.

Lemma order_by_counter_name_perm (l : list Stall) :
  Permutation l (order_by_counter_name l).
Proof.
  unfold order_by_counter_name.
  induction l as [|x l IH]; simpl.
  - apply perm_nil.
  - eapply perm_trans; [apply perm_skip, IH | apply insert_by_name_perm].
Qed.

Lemma stallBookingFees_query (table : list Stall) :
  stallBookingFees (stalls_query table)
  == Qsum (map fee_of (filter verified table)).
Proof.
  rewrite stallBookingFees_stated. apply Qsum_perm, Permutation_map.
  apply Permutation_sym, order_by_counter_name_perm.
Qed.

(** C8, as the page has it.  The stall booking fees are the sum of
    [registration_fee] over the verified stalls, which are the stalls the
    query loads: a verified stall adds its fee, a stall that is not
    verified adds nothing. *)
Theorem C8_booking_fees_of_verified_stalls (table : list Stall) :
  stallBookingFees (stalls_query table)
  == Qsum (map fee_of (filter verified table))
  /\ (forall l1 l2 s, table = l1 ++ s :: l2 ->
        stallBookingFees (stalls_query table)
        == stallBookingFees (stalls_query (l1 ++ l2))
           + (if verified s then fee_of s else 0)).
Proof.
  split; [apply stallBookingFees_query|].
  intros l1 l2 s ->. rewrite !stallBookingFees_query.
  destruct (verified s) eqn:E.
  - rewrite (filter_insert_true _ _ _ _ E), filter_app, !map_app, !Qsum_app.
    simpl. ring.
  - rewrite (filter_insert_false _ _ _ _ E). ring.
Qed.

(** C8 as stated fails: a stall that is not verified, with a registration
    fee of 100, is a stall of the system and adds nothing to the figure. *)
Lemma C8_unverified_stall_counterexample :
  stallBookingFees (stalls_query [Samples.unverified_stall]) == 0
  /\ Qsum (map fee_of [Samples.unverified_stall]) == 100
  /\ ~ stallBookingFees (stalls_query [Samples.unverified_stall])
       == Qsum (map fee_of [Samples.unverified_stall]).
Proof.
  repeat split; vm_compute; congruence.
Qed.

(** *** Falsy fields of a line item *)

Lemma reduce_in_order {A : Type} (f : A -> Q) (l : list A) (a : Q) :
  Js.reduce (fun sum x => sum + f x) a l = fold_left Qplus (map f l) a.
Proof.
  unfold Js.reduce. revert a.
  induction l as [|x l IH]; intros a; simpl; [reflexivity | apply IH].
Qed.

Lemma itemBalance_counted (item : LineItem) :
  itemBalance item = Counted.line_balance item.
Proof.
  unfold itemBalance, Counted.line_balance, Counted.price_counted,
    Counted.quantity_counted, Counted.margin_counted, Js.opt_or, Js.num_or,
    Js.truthy.
  destruct (price item) as [p|], (quantity item) as [q|],
    (event_margin item) as [m|];
    repeat match goal with
           | |- context [Qeq_bool ?x 0] => destruct (Qeq_bool x 0)
           end; reflexivity.
Qed.

Lemma txBalance_counted (tx : BillingTransaction) :
  txBalance tx = Counted.transaction_balance tx.
Proof.
  unfold txBalance, Counted.transaction_balance, Counted.sum_in_order,
    Counted.lines_counted.
  rewrite reduce_in_order. f_equal. apply map_ext, itemBalance_counted.
Qed.

Lemma computeBillBalance_counted (stallId : string)
    (txs : list BillingTransaction) :
  computeBillBalance (stallTransactions stallId txs)
  = Counted.bill_balance_counted stallId txs.
Proof.
  unfold computeBillBalance, Counted.bill_balance_counted, Counted.sum_in_order,
    stallTransactions.
  rewrite reduce_in_order. f_equal. apply map_ext, txBalance_counted.
Qed.

Lemma counted_falsy (x : option Q) (d : Q) :
  falsy x ->
  match x with Some q => if Qeq_bool q 0 then d else q | None => d end = d.
Proof.
  destruct x as [q|]; simpl; [|reflexivity].
  intros H. apply Qeq_bool_iff in H. now rewrite H.
Qed.

Lemma counted_truthy (x : option Q) (d q : Q) :
  x = Some q -> ~ q == 0 ->
  match x with Some q => if Qeq_bool q 0 then d else q | None => d end = q.
Proof.
  intros -> H. destruct (Qeq_bool q 0) eqn:E; [|reflexivity].
  apply Qeq_bool_iff in E. contradiction.
Qed.

(** C10.  The bill balance of a selected stall is the sum, over the
    transactions of the stall and over the line items of each, taken in
    their order, of price × quantity × (1 − margin/100) with the values the
    line item counts with: a falsy price (absent, or 0) counts as 0, a falsy
    quantity as 1, a falsy margin as 20, any other value as itself; a
    transaction whose [items] is not an array has no line item and adds 0,
    wherever it stands. *)
Theorem C10_falsy_fields (stallId : string) txs ps stalls :
  stallId <> EmptyString ->
  (exists d,
     selectedStallDetails stallId txs ps stalls = Some d
     /\ billBalance d = Counted.bill_balance_counted stallId txs)
  /\ (forall item, falsy (price item) -> Counted.price_counted item = 0)
  /\ (forall item, falsy (quantity item) -> Counted.quantity_counted item = 1)
  /\ (forall item, falsy (event_margin item) -> Counted.margin_counted item = 20)
  /\ (forall item p, price item = Some p -> ~ p == 0 ->
        Counted.price_counted item = p)
  /\ (forall item q, quantity item = Some q -> ~ q == 0 ->
        Counted.quantity_counted item = q)
  /\ (forall item m, event_margin item = Some m -> ~ m == 0 ->
        Counted.margin_counted item = m)
  /\ (forall tx, bt_items tx = JOther ->
        Counted.lines_counted tx = []
        /\ txBalance tx == 0
        /\ forall l1 l2,
             computeBillBalance (l1 ++ tx :: l2) == computeBillBalance (l1 ++ l2)).
Proof.
  intros Hid. split.
  { eexists. split; [apply (selected_some _ _ _ _ Hid)|]. simpl.
    apply computeBillBalance_counted. }
  split; [intros item; apply counted_falsy|].
  split; [intros item; apply counted_falsy|].
  split; [intros item; apply counted_falsy|].
  split; [intros item p; apply counted_truthy|].
  split; [intros item q; apply counted_truthy|].
  split; [intros item m; apply counted_truthy|].
  intros tx H. split; [|split].
  - unfold Counted.lines_counted. now rewrite H.
  - unfold txBalance. rewrite H. reflexivity.
  - intros l1 l2. rewrite !computeBillBalance_sum, !map_app, !Qsum_app.
    simpl. unfold items_of at 2. rewrite H. simpl. ring.
Qed.

(** *** The theorems at sample rows *)

Lemma C2_remaining_balance_witness :
  "S"%string <> EmptyString
  /\ exists d,
       selectedStallDetails "S" [Samples.scenario_tx]
         [Samples.payment_to "S" 50] [Samples.stall_S] = Some d
       /\ alreadyPaid d == already_paid "S" [Samples.payment_to "S" 50]
       /\ remainingBalance d == Qmax 0 (billBalance d - alreadyPaid d)
       /\ 0 <= remainingBalance d
       /\ (billBalance d <= alreadyPaid d -> remainingBalance d == 0)
       /\ (alreadyPaid d < billBalance d ->
           remainingBalance d == billBalance d - alreadyPaid d).
Proof.
  split; [discriminate|].
  apply (C2_remaining_balance "S"). discriminate.
Defined.

Lemma C6_payment_never_increases_remaining_witness :
  0 <= pay_amount_paid (Samples.payment_to "S" 30)
  /\ exists before after,
       selectedStallDetails "S" [Samples.scenario_tx]
         [Samples.payment_to "S" 50] [Samples.stall_S] = Some before
       /\ selectedStallDetails "S" [Samples.scenario_tx]
            ([Samples.payment_to "S" 50] ++ [Samples.payment_to "S" 30])
            [Samples.stall_S] = Some after
       /\ remainingBalance after <= remainingBalance before.
Proof.
  assert (H : 0 <= pay_amount_paid (Samples.payment_to "S" 30))
    by (simpl; lra).
  split; [exact H|].
  apply (C6_payment_never_increases_remaining "S" [Samples.scenario_tx]
           [Samples.payment_to "S" 50] [Samples.stall_S]
           (Samples.payment_to "S" 30));
    [discriminate | reflexivity | reflexivity | exact H].
Defined.

Lemma C4_total_paid_other_only_witness :
  totalPaid [Samples.payment_to "S" 50; Samples.expense 30]
  == totalPaid ([] ++ [Samples.expense 30]).
Proof.
  apply (proj1 (proj2 (C4_total_paid_other_only [] [] []
                         [Samples.payment_to "S" 50; Samples.expense 30]))
           [] [Samples.expense 30] (Samples.payment_to "S" 50));
    reflexivity.
Defined.

Lemma C7_no_transactions_witness :
  exists d,
    selectedStallDetails "S" [Samples.other_stall_tx]
      [Samples.payment_to "S" 50] [] = Some d
    /\ billedAmount d == 0
    /\ billBalance d == 0
    /\ remainingBalance d == 0.
Proof.
  destruct (C7_no_transactions "S" [Samples.other_stall_tx]
              [Samples.payment_to "S" 50] [])
    as (d & Hd & Hbilled & Hbalance & _ & Hzero & _).
  - discriminate.
  - intros t [<-|[]]. discriminate.
  - exists d. repeat split; try assumption.
    apply Hzero. vm_compute. discriminate.
Defined.

Lemma C8_booking_fees_of_verified_stalls_witness :
  stallBookingFees (stalls_query [Samples.stall_S; Samples.unverified_stall])
  == stallBookingFees (stalls_query ([Samples.stall_S] ++ []))
     + (if verified Samples.unverified_stall
        then fee_of Samples.unverified_stall else 0).
Proof.
  apply (proj2 (C8_booking_fees_of_verified_stalls
                  [Samples.stall_S; Samples.unverified_stall])
           [Samples.stall_S] [] Samples.unverified_stall).
  reflexivity.
Defined.

Lemma C10_falsy_fields_witness :
  exists d,
    selectedStallDetails "S" [Counted.falsy_lines_tx; Counted.no_array_tx] [] []
    = Some d
    /\ billBalance d == 330.
Proof.
  destruct (C10_falsy_fields "S" [Counted.falsy_lines_tx; Counted.no_array_tx]
              [] []) as ((d & Hd & Hb) & _).
  - discriminate.
  - exists d. split; [exact Hd|]. rewrite Hb. vm_compute. reflexivity.
Defined.

End Reconciliation.

(* ------------------------------------------------------------------ *)
(** ** The guard on a payment to a stall *)

Module Recording.
Import Accounts PaymentForm.

Section Guard.

Variable parseFloat : string -> option Q.
Variable storage_insert : NewPayment -> list Payment -> string + list Payment.

Lemma gt_true (a b : Q) : b < a -> Js.gt a b = true.
Proof.
  intros H. unfold Js.gt.
  destruct (Qle_bool a b) eqn:E; [|reflexivity].
  apply Qle_bool_iff in E. lra.
Qed.

Lemma gt_false (a b : Q) : a <= b -> Js.gt a b = false.
Proof.
  intros H. unfold Js.gt. apply Qle_bool_iff in H. now rewrite H.
Qed.

(** C3.  With a stall selected and an amount typed in: an amount above
    the remaining balance of the stall is refused with the message
    "Amount exceeds remaining balance", and the click then leaves the
    payments table and the loaded payments as they were, whatever the
    storage layer would have answered; an amount that is at most the
    remaining balance is handed to the mutation as a participant payment
    of the stall, and the table after the click is the one the storage
    layer returns for it. *)
Theorem C3_payment_guard (pg : Page) (a : Q) :
  stallId (stallPayment pg) <> EmptyString ->
  amount (stallPayment pg) <> EmptyString ->
  parseFloat (amount (stallPayment pg)) = Some a ->
  exists d,
    details pg = Some d
    /\ (remainingBalance d < a ->
         handleStallPayment parseFloat pg
         = Report "Amount exceeds remaining balance"
         /\ payments_table (clickProcessPayment parseFloat storage_insert pg)
            = payments_table pg
         /\ payments (clickProcessPayment parseFloat storage_insert pg)
            = payments pg)
    /\ (a <= remainingBalance d ->
         let np := {| np_payment_type := participant;
                      np_stall_id := Some (stallId (stallPayment pg));
                      np_amount_paid := Some a;
                      np_narration :=
                        Some ("Payment to " ++ stallName d)%string |} in
         handleStallPayment parseFloat pg = Mutate np
         /\ payments_table (clickProcessPayment parseFloat storage_insert pg)
            = match storage_insert np (payments_table pg) with
              | inr table' => table'
              | inl _ => payments_table pg
              end).
Proof.
  intros Hs Ha Hp.
  destruct (details pg) as [d|] eqn:Hd.
  2:{ unfold details in Hd.
      rewrite (Reconciliation.selected_some _ _ _ _ Hs) in Hd. discriminate. }
  exists d. split; [reflexivity|].
  assert (Hguard : (String.eqb (stallId (stallPayment pg)) EmptyString
                    || String.eqb (amount (stallPayment pg)) EmptyString)%bool = false).
  { apply orb_false_iff. split; apply String.eqb_neq; assumption. }
  split.
  - intros Hlt.
    assert (Hh : handleStallPayment parseFloat pg
                 = Report "Amount exceeds remaining balance").
    { unfold handleStallPayment. rewrite Hguard, Hd, Hp. simpl.
      now rewrite (gt_true _ _ Hlt). }
    split; [exact Hh|].
    unfold clickProcessPayment. rewrite Hh. split; reflexivity.
  - intros Hle np.
    assert (Hh : handleStallPayment parseFloat pg = Mutate np).
    { unfold handleStallPayment. rewrite Hguard, Hd, Hp. simpl.
      now rewrite (gt_false _ _ Hle). }
    split; [exact Hh|].
    unfold clickProcessPayment. rewrite Hh. unfold mutate.
    destruct (storage_insert np (payments_table pg)); reflexivity.
Qed.

End Guard.


Lemma C3_payment_guard_witness :
  (handleStallPayment Samples.parse_sample (Samples.page_with_amount "200")
   = Report "Amount exceeds remaining balance"
   /\ payments_table (clickProcessPayment Samples.parse_sample
                        Samples.insert_sample (Samples.page_with_amount "200"))
      = [Samples.payment_to "S" 50])
  /\ (exists np,
        handleStallPayment Samples.parse_sample (Samples.page_with_amount "50")
        = Mutate np
        /\ np_payment_type np = participant
        /\ np_stall_id np = Some "S"%string
        /\ np_amount_paid np = Some 50).
Proof.
  split.
  - destruct (C3_payment_guard Samples.parse_sample Samples.insert_sample
                (Samples.page_with_amount "200") 200)
      as (d & Hd & Hreject & _);
      [discriminate | discriminate | reflexivity |].
    vm_compute in Hd. injection Hd as <-.
    destruct Hreject as (Hh & Ht & _); [vm_compute; reflexivity|].
    split; [exact Hh | exact Ht].
  - destruct (C3_payment_guard Samples.parse_sample Samples.insert_sample
                (Samples.page_with_amount "50") 50)
      as (d & Hd & _ & Haccept);
      [discriminate | discriminate | reflexivity |].
    vm_compute in Hd. injection Hd as <-.
    destruct Haccept as (Hh & _); [vm_compute; discriminate|].
    eexists. split; [exact Hh|]. repeat split.
Defined.

End Recording.

(* ------------------------------------------------------------------ *)
(** ** The generated selling price *)

Module GeneratedColumn.
Import Schema Stated.

(** *** Rounding *)

Lemma round_half_away_near (x : Q) :
  x - (1 # 2) <= inject_Z (round_half_away x) <= x + (1 # 2).
Proof.
  unfold round_half_away.
  destruct x as [n d]. destruct n as [|p|p]; simpl Z.sgn; simpl Qabs.
  - rewrite Z.mul_0_l.
    assert (E : 0 # d == 0) by reflexivity.
    rewrite E. change (inject_Z 0) with 0. lra.
  - rewrite Z.mul_1_l.
    pose proof (Qfloor_le ((Z.pos p # d) + (1 # 2))) as Hlo.
    pose proof (Qlt_floor ((Z.pos p # d) + (1 # 2))) as Hhi.
    rewrite inject_Z_plus in Hhi. change (inject_Z 1) with 1 in Hhi. lra.
  - assert (E : Z.neg p # d == - (Z.pos p # d)) by reflexivity.
    pose proof (Qfloor_le ((Z.pos p # d) + (1 # 2))) as Hlo.
    pose proof (Qlt_floor ((Z.pos p # d) + (1 # 2))) as Hhi.
    rewrite inject_Z_plus in Hhi. change (inject_Z 1) with 1 in Hhi.
    replace (-1 * Qfloor ((Z.pos p # d) + (1 # 2)))%Z
      with (- Qfloor ((Z.pos p # d) + (1 # 2)))%Z by lia.
    rewrite inject_Z_opp, E. lra.
Qed.

(** A value rounded to two decimals is within half a hundredth of it. *)
Lemma round_scale_2_near (v : Q) :
  v - (1 # 200) <= round_scale 2 v <= v + (1 # 200).
Proof.
  unfold round_scale. change (pow10 2) with 100.
  pose proof (round_half_away_near (v * 100)) as H.
  set (k := inject_Z (round_half_away (v * 100))) in *.
  split; apply Qle_shift_div_l || apply Qle_shift_div_r; lra.
Qed.

Lemma numeric_rounds (p s : nat) (v r : Q) :
  numeric p s v = Some r -> r = round_scale s v.
Proof.
  unfold numeric. destruct (Js.gt _ _); congruence.
Qed.

(** *** The generated column *)

Lemma generated_written_out (r : Product) :
  selling_price_generated r -> generated_row r.
Proof.
  unfold selling_price_generated, generated_row, generated_selling_price.
  destruct (event_margin r) as [m|]; simpl.
  - destruct (numeric 10 2 (cost_price r * (1 + m / 100))) as [s|] eqn:E;
      [|discriminate].
    intros H. injection H as H. exists s.
    apply numeric_rounds in E. subst s.
    split; [now symmetry|]. split; [reflexivity|].
    apply round_scale_2_near.
  - intros H. now injection H as H.
Qed.

Lemma build_row_generated (i : Insert) (r : Product) :
  build_row i = Some r -> selling_price_generated r.
Proof.
  unfold build_row, selling_price_generated.
  destruct (ins_selling_price i); [|discriminate].
  destruct (ins_cost_price i) as [c|]; [|discriminate].
  destruct (numeric 10 2 c) as [cost|]; [|discriminate].
  destruct (numeric_null 5 2 _) as [margin|]; [|discriminate].
  destruct (generated_selling_price cost margin) as [sp|] eqn:E; [|discriminate].
  intros H. injection H as <-. exact E.
Qed.

Lemma update_row_generated (u : Update) (r r' : Product) :
  update_row u r = Some r' -> selling_price_generated r'.
Proof.
  unfold update_row, selling_price_generated.
  destruct (match upd_cost_price u with Some v => v | None => Some (cost_price r) end)
    as [c|]; [|discriminate].
  destruct (numeric 10 2 c) as [cost|]; [|discriminate].
  destruct (numeric_null 5 2 _) as [margin|]; [|discriminate].
  destruct (generated_selling_price cost margin) as [sp|] eqn:E; [|discriminate].
  intros H. injection H as <-. exact E.
Qed.

Lemma update_rows_generated (u : Update) (table table' : list Product) :
  Forall selling_price_generated table ->
  update_rows u table = Some table' ->
  Forall selling_price_generated table'.
Proof.
  revert table'. induction table as [|r rest IH]; intros table' Hall; simpl.
  - intros H. injection H as <-. constructor.
  - inversion Hall as [|? ? Hr Hrest]; subst.
    destruct (update_rows u rest) as [rest'|]; [|discriminate].
    specialize (IH rest' Hrest eq_refl).
    destruct (upd_where u r).
    + destruct (update_row u r) as [r'|] eqn:E; [|discriminate].
      intros H. injection H as <-. constructor; [|exact IH].
      exact (update_row_generated _ _ _ E).
    + intros H. injection H as <-. now constructor.
Qed.

Lemma step_generated (table : list Product) (st : Statement) :
  Forall selling_price_generated table ->
  Forall selling_price_generated (step table st).
Proof.
  intros Hall. unfold step.
  destruct (exec st table) as [table'|] eqn:E; [|exact Hall].
  destruct st as [i|u|cond]; simpl in E.
  - destruct (existsb _ table); [discriminate|].
    destruct (build_row i) as [r|] eqn:Er; [|discriminate].
    injection E as <-. apply Forall_app. split; [exact Hall|].
    constructor; [|constructor]. exact (build_row_generated _ _ Er).
  - destruct (upd_selling_price u) as [[|v]|];
      try discriminate; eapply update_rows_generated; eauto.
  - injection E as <-. apply Forall_forall. intros r Hr.
    apply filter_In in Hr as [Hr _].
    rewrite Forall_forall in Hall. now apply Hall.
Qed.

Lemma fold_step_generated (sts : list Statement) (table : list Product) :
  Forall selling_price_generated table ->
  Forall selling_price_generated (fold_left step sts table).
Proof.
  revert table. induction sts as [|st sts IH]; intros table Hall; simpl.
  - exact Hall.
  - apply IH, step_generated, Hall.
Qed.

(** C9, as the schema has it.  After any sequence of inserts, updates and
    deletes, every product row stores as selling price the value of
    cost_price × (1 + event_margin/100) rounded to two decimals (so within
    0.005 of it), or NULL when the margin is NULL; and a statement that
    gives the selling price a value of its own is refused and leaves the
    table as it was. *)
Theorem C9_selling_price_is_generated (sts : list Statement) :
  Forall generated_row (run sts)
  /\ (forall table i v,
        ins_selling_price i = VALUE v -> step table (INSERT i) = table)
  /\ (forall table u v,
        upd_selling_price u = Some (VALUE v) -> step table (UPDATE u) = table).
Proof.
  split; [|split].
  - apply Forall_forall. intros r Hr. apply generated_written_out.
    pose proof (fold_step_generated sts [] (Forall_nil _)) as H.
    rewrite Forall_forall in H. now apply H.
  - intros table i v H. unfold step. simpl. unfold build_row. rewrite H.
    destruct (existsb _ table); reflexivity.
  - intros table u v H. unfold step. simpl. now rewrite H.
Qed.

(** C9 as stated fails: a product of one cent with the default margin of
    20 stores the selling price 0.01, where
    cost_price × (1 + event_margin/100) is 0.012. *)
Lemma C9_rounding_counterexample :
  exists r,
    run [INSERT Samples.one_cent_insert] = [r]
    /\ cost_price r == 1 # 100
    /\ (exists m, event_margin r = Some m /\ m == 20)
    /\ (exists s, selling_price r = Some s /\ s == 1 # 100)
    /\ ~ selling_price_exact r.
Proof.
  eexists. split; [vm_compute; reflexivity|].
  split; [reflexivity|]. split.
  - eexists. split; reflexivity.
  - split.
    + eexists. split; reflexivity.
    + vm_compute. congruence.
Qed.


Lemma C9_selling_price_is_generated_witness :
  Forall generated_row (run [INSERT Samples.one_cent_insert])
  /\ step (run [INSERT Samples.one_cent_insert]) (INSERT Samples.priced_insert)
     = run [INSERT Samples.one_cent_insert]
  /\ step (run [INSERT Samples.one_cent_insert]) (UPDATE Samples.priced_update)
     = run [INSERT Samples.one_cent_insert].
Proof.
  destruct (C9_selling_price_is_generated [INSERT Samples.one_cent_insert])
    as (Hall & Hins & Hupd).
  split; [exact Hall|]. split.
  - apply (Hins _ Samples.priced_insert (Some 5)). reflexivity.
  - apply (Hupd _ Samples.priced_update (Some 5)). reflexivity.
Defined.

End GeneratedColumn.

(* ------------------------------------------------------------------ *)
(** ** The list of collections *)

Module LedgerFacts.
Import Accounts Stated SumFacts Reconciliation Ledger.


(** *** The sort of the list *)

Lemma insert_sorted_perm cmp (x : Collection) (l : list Collection) :
  Permutation (x :: l) (insert_sorted cmp x l).
Proof.
  induction l as [|y l IH]; simpl.
  - apply Permutation_refl.
  - destruct (cmp x y <=? 0)%Z.
    + apply Permutation_refl.
    + eapply perm_trans; [apply perm_swap|]. now apply perm_skip.
Qed.

Lemma sort_perm cmp (l : list Collection) : Permutation l (sort cmp l).
Proof.
  unfold sort. induction l as [|x l IH]; simpl.
  - apply perm_nil.
  - eapply perm_trans; [apply perm_skip, IH | apply insert_sorted_perm].
Qed.

Lemma insert_sorted_hd (x a : Collection) (l : list Collection) :
  not_older a x -> HdRel not_older a l ->
  HdRel not_older a (insert_sorted by_date_desc x l).
Proof.
  intros Hax Hl. destruct l as [|y l]; simpl.
  - now constructor.
  - destruct (by_date_desc x y <=? 0)%Z; constructor; trivial.
    now inversion Hl.
Qed.

Lemma insert_sorted_sorted (x : Collection) (l : list Collection) :
  Sorted not_older l -> Sorted not_older (insert_sorted by_date_desc x l).
Proof.
  induction 1 as [|y l Hl IH Hy]; simpl.
  - repeat constructor.
  - destruct (by_date_desc x y <=? 0)%Z eqn:E.
    + apply Z.leb_le in E. unfold by_date_desc in E.
      constructor; [now constructor|]. constructor. unfold not_older. lia.
    + apply Z.leb_gt in E. unfold by_date_desc in E.
      constructor; [exact IH|].
      apply insert_sorted_hd; [unfold not_older; lia | exact Hy].
Qed.

Lemma sort_sorted (l : list Collection) : Sorted not_older (sort by_date_desc l).
Proof.
  unfold sort. induction l as [|x l IH]; simpl.
  - constructor.
  - now apply insert_sorted_sorted.
Qed.

Lemma has_fee_iff (s : StallRow) :
  has_fee s = true
  <-> exists f, st_registration_fee (s_stall s) = Some f /\ 0 < f.
Proof.
  unfold has_fee, Js.gt, Js.truthy.
  destruct (st_registration_fee (s_stall s)) as [f|].
  - split.
    + intros H. apply andb_true_iff in H as [_ H].
      exists f. split; [reflexivity|].
      destruct (Qle_bool f 0) eqn:E; [discriminate|].
      apply Qnot_le_lt. intros Hle. apply Qle_bool_iff in Hle. congruence.
    + intros (g & Hg & Hpos). injection Hg as <-.
      apply andb_true_iff. split.
      * destruct (Qeq_bool f 0) eqn:E; [|reflexivity].
        apply Qeq_bool_iff in E. lra.
      * destruct (Qle_bool f 0) eqn:E; [|reflexivity].
        apply Qle_bool_iff in E. lra.
  - split; [discriminate|]. intros (f & Hf & _). discriminate.
Qed.

Lemma not_stall_counter_iff (r : RegistrationRow) :
  not_stall_counter r = true
  <-> reg_registration_type (r_reg r) <> stall_counter.
Proof.
  unfold not_stall_counter.
  destruct (reg_registration_type (r_reg r)); simpl; split;
    congruence || discriminate || reflexivity.
Qed.

(** X3.  The list of collections holds every billing transaction, every
    stall with a positive fee and every registration that is not a
    stall-counter booking exactly once, and nothing else; it is ordered
    newest first, a row without a date counting as the epoch. *)
Theorem X3_collections_sorted_permutation
    (b : list BillingRow) (s : list StallRow) (r : list RegistrationRow) :
  Permutation
    (map of_billing b ++ map of_stall (filter has_fee s)
     ++ map of_registration (filter not_stall_counter r))
    (collections b s r)
  /\ StronglySorted not_older (collections b s r)
  /\ List.length (collections b s r)
     = (List.length b + List.length (filter has_fee s)
        + List.length (filter not_stall_counter r))%nat.
Proof.
  assert (P : Permutation
                (map of_billing b ++ map of_stall (filter has_fee s)
                 ++ map of_registration (filter not_stall_counter r))
                (collections b s r)) by apply sort_perm.
  split; [exact P|]. split.
  - apply Sorted_StronglySorted.
    + intros x y z Hxy Hyz. unfold not_older in *. lia.
    + apply sort_sorted.
  - rewrite <- (Permutation_length P), !List.length_app, !List.length_map. lia.
Qed.

(** X4.  A row is in the list of collections exactly when it is the row of a
    billing transaction, of a stall whose fee is a positive number, or of a
    registration that is not a stall-counter booking; and the category of a
    registration row names the type of the registration. *)
Theorem X4_collections_rows
    (b : list BillingRow) (s : list StallRow) (r : list RegistrationRow)
    (c : Collection) :
  (In c (collections b s r)
   <-> (exists t, In t b /\ c = of_billing t)
       \/ (exists st f, In st s /\ st_registration_fee (s_stall st) = Some f
                        /\ 0 < f /\ c = of_stall st)
       \/ (exists rg, In rg r
                      /\ reg_registration_type (r_reg rg) <> stall_counter
                      /\ c = of_registration rg))
  /\ (forall rg, In rg r ->
        reg_registration_type (r_reg rg) <> stall_counter ->
        (c_category (of_registration rg) = "Employment Booking"%string
         /\ reg_registration_type (r_reg rg) = employment_booking)
        \/ (c_category (of_registration rg) = "Employment Registration"%string
            /\ reg_registration_type (r_reg rg) = employment_registration)).
Proof.
  split.
  - assert (P := sort_perm by_date_desc
                   (map of_billing b ++ map of_stall (filter has_fee s)
                    ++ map of_registration (filter not_stall_counter r))).
    fold (collections b s r) in P.
    split.
    + intros H. apply (Permutation_in _ (Permutation_sym P)) in H.
      rewrite !in_app_iff, !in_map_iff in H.
      destruct H as [(t & <- & Ht)|[(st & <- & Hst)|(rg & <- & Hrg)]].
      * left. now exists t.
      * right. left. apply filter_In in Hst as [Hin Hfee].
        apply has_fee_iff in Hfee as (f & Hf & Hpos). now exists st, f.
      * right. right. apply filter_In in Hrg as [Hin Hty].
        apply not_stall_counter_iff in Hty. now exists rg.
    + intros H. apply (Permutation_in _ P).
      rewrite !in_app_iff, !in_map_iff.
      destruct H as [(t & Ht & ->)|[(st & f & Hin & Hf & Hpos & ->)
                                   |(rg & Hin & Hty & ->)]].
      * left. now exists t.
      * right. left. exists st. split; [reflexivity|].
        apply filter_In. split; [exact Hin|]. apply has_fee_iff. now exists f.
      * right. right. exists rg. split; [reflexivity|].
        apply filter_In. split; [exact Hin|]. now apply not_stall_counter_iff.
  - intros rg _ Hty. unfold of_registration. simpl.
    destruct (reg_registration_type (r_reg rg)); simpl;
      [contradiction | left | right]; split; reflexivity.
Qed.

End LedgerFacts.

(* ------------------------------------------------------------------ *)
(** ** The selected stall and the payment forms *)

Module StallFacts.
Import Accounts PaymentForm Stated SumFacts Reconciliation Ledger.

Lemma selected_inv (stallId : string) txs ps stalls d :
  selectedStallDetails stallId txs ps stalls = Some d ->
  stallId <> EmptyString
  /\ billBalance d = computeBillBalance (stallTransactions stallId txs)
  /\ alreadyPaid d = sumAmountPaid (stallParticipantPayments stallId ps)
  /\ remainingBalance d = Js.max 0 (billBalance d - alreadyPaid d).
Proof.
  unfold selectedStallDetails.
  destruct (String.eqb_spec stallId EmptyString) as [E|E]; [discriminate|].
  intros H. injection H as <-. simpl. auto.
Qed.



(** A payment counts for a stall when it is a participant payment with the
    identifier of the stall. *)
Lemma counts_for_false (stallId : string) (p : Payment) :
  pay_payment_type p = other \/ pay_stall_id p <> Some stallId ->
  (stall_id_is (pay_stall_id p) stallId
   && payment_type_eqb (pay_payment_type p) participant)%bool = false.
Proof.
  intros [H|H].
  - rewrite H. apply andb_false_r.
  - unfold stall_id_is. destruct (pay_stall_id p) as [s|]; [|reflexivity].
    destruct (String.eqb_spec s stallId) as [E|E]; [|reflexivity].
    subst s. contradiction.
Qed.


(** X8.  A payment that is not a participant payment of the selected stall
    (a payment of type "other", a payment without a stall, a payment of
    another stall) changes none of the figures of the stall, wherever it
    stands in the collection. *)
Theorem X8_foreign_payment_ignored (stallId : string) txs stalls l1 l2 p :
  pay_payment_type p = other \/ pay_stall_id p <> Some stallId ->
  selectedStallDetails stallId txs (l1 ++ p :: l2) stalls
  = selectedStallDetails stallId txs (l1 ++ l2) stalls.
Proof.
  intros H. unfold selectedStallDetails, stallParticipantPayments.
  rewrite (filter_insert_false _ l1 l2 p (counts_for_false stallId p H)).
  reflexivity.
Qed.

Lemma computeBilledAmount_sum (txs : list BillingTransaction) :
  computeBilledAmount txs == Qsum (map bt_total txs).
Proof.
  unfold computeBilledAmount. rewrite reduce_sum, Qplus_0_l.
  apply Qsum_ext. intros t. apply num_or_zero.
Qed.

(** X9.  A billing transaction of another stall changes none of the
    figures of the selected stall, wherever it is loaded.  One of the
    selected stall leaves what was already paid and the name as they are;
    when it is the last of the stall's transactions in the loaded order, the
    billed amount is the previous one plus its total and the bill balance the
    previous one plus the balance of its line items. *)
Theorem X9_one_more_transaction (stallId : string) l1 l2 ps stalls tx before :
  selectedStallDetails stallId (l1 ++ l2) ps stalls = Some before ->
  (bt_stall_id tx <> stallId ->
   selectedStallDetails stallId (l1 ++ tx :: l2) ps stalls = Some before)
  /\ (bt_stall_id tx = stallId ->
      exists after,
        selectedStallDetails stallId (l1 ++ tx :: l2) ps stalls = Some after
        /\ alreadyPaid after = alreadyPaid before
        /\ stallName after = stallName before
        /\ (stallTransactions stallId l2 = [] ->
            billedAmount after
            = billedAmount before + Js.num_or (bt_total tx) 0
            /\ billBalance after = billBalance before + txBalance tx)).
Proof.
  intros Hb. split.
  - intros Hne. rewrite <- Hb. unfold selectedStallDetails, stallTransactions.
    rewrite filter_insert_false; [reflexivity|]. now apply String.eqb_neq.
  - intros He.
    destruct (selected_inv _ _ _ _ _ Hb) as (Hid & _ & _ & _).
    rewrite (selected_some _ _ _ _ Hid) in Hb. injection Hb as <-.
    eexists. split; [apply (selected_some _ _ _ _ Hid)|]. simpl.
    split; [reflexivity|]. split; [reflexivity|].
    intros Hlast. unfold stallTransactions in *.
    rewrite filter_insert_true by now apply String.eqb_eq.
    rewrite filter_app, Hlast, app_nil_r.
    unfold computeBilledAmount, computeBillBalance, Js.reduce.
    rewrite !fold_left_app. simpl. split; reflexivity.
Qed.






(** X11.  The stalls the page loads are exactly the stalls of the table whose
    [is_verified] is true (a stall with a NULL flag is not loaded), each as
    often as it is in the table. *)
Theorem X11_loaded_stalls_are_the_verified (table : list Stall) :
  Permutation (filter verified table) (stalls_query table)
  /\ (forall s, In s (stalls_query table)
                <-> In s table /\ st_is_verified s = Some true).
Proof.
  assert (P : Permutation (filter verified table) (stalls_query table))
    by apply order_by_counter_name_perm.
  split; [exact P|]. intros s. split.
  - intros H. apply (Permutation_in _ (Permutation_sym P)) in H.
    apply filter_In in H as [Hin Hv]. split; [exact Hin|].
    unfold verified in Hv.
    destruct (st_is_verified s) as [[|]|]; congruence.
  - intros [Hin Hv]. apply (Permutation_in _ P), filter_In.
    split; [exact Hin|]. unfold verified. now rewrite Hv.
Qed.


Lemma X8_foreign_payment_ignored_witness :
  selectedStallDetails "S" [Samples.scenario_tx]
    ([Samples.payment_to "S" 50] ++ Samples.expense 30 :: []) [Samples.stall_S]
  = selectedStallDetails "S" [Samples.scenario_tx]
      ([Samples.payment_to "S" 50] ++ []) [Samples.stall_S].
Proof.
  apply X8_foreign_payment_ignored. left. reflexivity.
Defined.

Lemma X9_one_more_transaction_witness :
  exists before after,
    selectedStallDetails "S" ([] ++ []) [] [Samples.stall_S] = Some before
    /\ selectedStallDetails "S" ([] ++ Samples.scenario_tx :: []) []
         [Samples.stall_S] = Some after
    /\ billBalance after = billBalance before + txBalance Samples.scenario_tx.
Proof.
  eexists.
  edestruct (X9_one_more_transaction "S" [] [] [] [Samples.stall_S]
               Samples.scenario_tx) as [_ Hsame]; [reflexivity|].
  destruct (Hsame eq_refl) as (after & Ha & _ & _ & Hlast).
  exists after. split; [reflexivity|]. split; [exact Ha|].
  apply Hlast. reflexivity.
Defined.


End StallFacts.

(* ------------------------------------------------------------------ *)
(** ** The two payment forms and the storage layer *)

Module PaymentFacts.
Import Accounts PaymentForm Stated SumFacts Reconciliation Ledger.
Import GeneratedColumn StallFacts.

Section Forms.

Variable parseFloat : string -> option Q.
Variable storage_insert : NewPayment -> list Payment -> string + list Payment.

(** What the handler hands to the mutation, when it does. *)
Lemma handleStallPayment_mutates (pg : Page) (np : NewPayment) :
  handleStallPayment parseFloat pg = Mutate np ->
  exists d,
    details pg = Some d
    /\ PaymentForm.amount (stallPayment pg) <> EmptyString
    /\ np_payment_type np = participant
    /\ np_stall_id np = Some (stallId (stallPayment pg))
    /\ np_amount_paid np = parseFloat (PaymentForm.amount (stallPayment pg))
    /\ np_narration np = Some ("Payment to " ++ stallName d)%string
    /\ exceeds (np_amount_paid np) (remainingBalance d) = false.
Proof.
  unfold handleStallPayment.
  destruct (String.eqb_spec (stallId (stallPayment pg)) EmptyString) as [E|E];
    [discriminate|].
  destruct (String.eqb_spec (PaymentForm.amount (stallPayment pg)) EmptyString)
    as [Ea|Ea]; [discriminate|]. simpl.
  unfold details. rewrite (selected_some _ _ _ _ E).
  set (d := {| billedAmount := _ |}).
  destruct (exceeds _ (remainingBalance d)) eqn:Ex; [discriminate|].
  intros H. injection H as <-. exists d. simpl. auto 10.
Qed.

(** X12.  "Process Payment" without a stall or without an amount reports
    "Please select a stall and enter amount" and writes nothing.  Whatever
    the handler hands to the mutation is a participant payment of the
    selected stall with the amount as [parseFloat] read it; an amount that
    [parseFloat] cannot read (NaN) is not stopped by the guard and is handed
    over as it is. *)
Theorem X12_stall_payment_edges (pg : Page) :
  (stallId (stallPayment pg) = EmptyString
   \/ PaymentForm.amount (stallPayment pg) = EmptyString ->
   handleStallPayment parseFloat pg
   = Report "Please select a stall and enter amount"
   /\ payments_table (clickProcessPayment parseFloat storage_insert pg)
      = payments_table pg)
  /\ (forall np, handleStallPayment parseFloat pg = Mutate np ->
        stallId (stallPayment pg) <> EmptyString
        /\ np_payment_type np = participant
        /\ np_stall_id np = Some (stallId (stallPayment pg))
        /\ np_amount_paid np = parseFloat (PaymentForm.amount (stallPayment pg)))
  /\ (stallId (stallPayment pg) <> EmptyString ->
      PaymentForm.amount (stallPayment pg) <> EmptyString ->
      parseFloat (PaymentForm.amount (stallPayment pg)) = None ->
      exists np, handleStallPayment parseFloat pg = Mutate np
                 /\ np_amount_paid np = None).
Proof.
  split; [|split].
  - intros H.
    assert (Hh : handleStallPayment parseFloat pg
                 = Report "Please select a stall and enter amount").
    { unfold handleStallPayment.
      destruct H as [H|H]; rewrite H; simpl; [reflexivity|].
      now rewrite orb_true_r. }
    split; [exact Hh|]. unfold clickProcessPayment. now rewrite Hh.
  - intros np H.
    destruct (handleStallPayment_mutates pg np H)
      as (d & Hd & _ & Ht & Hs & Ha & _).
    repeat split; try assumption.
    unfold details in Hd. now destruct (selected_inv _ _ _ _ _ Hd).
  - intros Hs Ha Hp. unfold handleStallPayment.
    destruct (String.eqb_spec (stallId (stallPayment pg)) EmptyString);
      [contradiction|].
    destruct (String.eqb_spec (PaymentForm.amount (stallPayment pg)) EmptyString);
      [contradiction|].
    simpl. rewrite Hp. unfold details. rewrite (selected_some _ _ _ _ Hs).
    simpl. eexists. split; reflexivity.
Qed.



End Forms.



End PaymentFacts.

(* ------------------------------------------------------------------ *)
(** ** What the [products] table keeps *)

Module SchemaFacts.
Import Schema Stated Stored GeneratedColumn.

(** An invariant of the rows that every inserted and every rewritten row
    has holds of every table the statements can build. *)
Lemma run_invariant (P : Product -> Prop) :
  (forall i r, build_row i = Some r -> P r) ->
  (forall u r r', update_row u r = Some r' -> P r') ->
  forall sts, Forall P (run sts).
Proof.
  intros Hins Hupd sts. unfold run.
  assert (G : forall table, Forall P table -> Forall P (fold_left step sts table)).
  { induction sts as [|st sts IH]; intros table Hall; simpl; [exact Hall|].
    apply IH. unfold step.
    destruct (exec st table) as [table'|] eqn:E; [|exact Hall].
    destruct st as [i|u|cond]; simpl in E.
    - destruct (existsb _ table); [discriminate|].
      destruct (build_row i) as [r|] eqn:Er; [|discriminate].
      injection E as <-. apply Forall_app. split; [exact Hall|].
      constructor; [|constructor]. exact (Hins _ _ Er).
    - assert (U : update_rows u table = Some table')
        by (destruct (upd_selling_price u) as [[|v]|]; congruence).
      clear E. revert table' U.
      induction Hall as [|r rest Hr Hrest IHr]; intros table' U; simpl in U.
      + injection U as <-. constructor.
      + destruct (update_rows u rest) as [rest'|]; [|discriminate].
        specialize (IHr rest' eq_refl).
        destruct (upd_where u r).
        * destruct (update_row u r) as [r'|] eqn:Eu; [|discriminate].
          injection U as <-. constructor; [exact (Hupd _ _ _ Eu) | exact IHr].
        * injection U as <-. now constructor.
    - injection E as <-. apply Forall_forall. intros r Hr.
      apply filter_In in Hr as [Hr _].
      rewrite Forall_forall in Hall. now apply Hall. }
  apply G. constructor.
Qed.

Lemma numeric_10_2_typed (v r : Q) :
  numeric 10 2 v = Some r -> in_numeric_10_2 r.
Proof.
  unfold numeric. destruct (Js.gt _ _) eqn:E; [|discriminate].
  intros H. injection H as <-. split.
  - eexists. reflexivity.
  - unfold Js.gt in E. change (pow10 (10 - 2)) with 100000000 in E.
    apply Qabs_Qlt_condition.
    destruct (Qle_bool 100000000 (Qabs (round_scale 2 v))) eqn:L; [discriminate|].
    apply Qnot_le_lt. intros Hle. apply Qle_bool_iff in Hle. congruence.
Qed.

Lemma numeric_5_2_typed (v r : Q) :
  numeric 5 2 v = Some r -> in_numeric_5_2 r.
Proof.
  unfold numeric. destruct (Js.gt _ _) eqn:E; [|discriminate].
  intros H. injection H as <-. split.
  - eexists. reflexivity.
  - unfold Js.gt in E. change (pow10 (5 - 2)) with 1000 in E.
    apply Qabs_Qlt_condition.
    destruct (Qle_bool 1000 (Qabs (round_scale 2 v))) eqn:L; [discriminate|].
    apply Qnot_le_lt. intros Hle. apply Qle_bool_iff in Hle. congruence.
Qed.

Lemma built_typed (cost c : Q) (margin_in margin sp : option Q) :
  numeric 10 2 c = Some cost ->
  numeric_null 5 2 margin_in = Some margin ->
  generated_selling_price cost margin = Some sp ->
  in_numeric_10_2 cost
  /\ (forall m, margin = Some m -> in_numeric_5_2 m)
  /\ (forall s, sp = Some s -> in_numeric_10_2 s).
Proof.
  intros Hc Hm Hs. split; [exact (numeric_10_2_typed _ _ Hc)|]. split.
  - intros m ->. unfold numeric_null in Hm.
    destruct margin_in as [x|]; [|discriminate].
    destruct (numeric 5 2 x) as [y|] eqn:E; [|discriminate].
    injection Hm as <-. exact (numeric_5_2_typed _ _ E).
  - intros s ->. unfold generated_selling_price in Hs.
    destruct (selling_price_expr cost margin) as [v|]; [|discriminate].
    destruct (numeric 10 2 v) as [y|] eqn:E; [|discriminate].
    injection Hs as <-. exact (numeric_10_2_typed _ _ E).
Qed.

Lemma build_row_typed (i : Insert) (r : Product) :
  build_row i = Some r -> typed_row r.
Proof.
  unfold build_row, typed_row.
  destruct (ins_selling_price i); [|discriminate].
  destruct (ins_cost_price i) as [c|]; [|discriminate].
  destruct (numeric 10 2 c) as [cost|] eqn:Ec; [|discriminate].
  destruct (numeric_null 5 2 _) as [margin|] eqn:Em; [|discriminate].
  destruct (generated_selling_price cost margin) as [sp|] eqn:Es; [|discriminate].
  intros H. injection H as <-. simpl. exact (built_typed _ _ _ _ _ Ec Em Es).
Qed.

Lemma update_row_typed (u : Update) (r r' : Product) :
  update_row u r = Some r' -> typed_row r'.
Proof.
  unfold update_row, typed_row.
  destruct (match upd_cost_price u with Some v => v | None => Some (cost_price r) end)
    as [c|]; [|discriminate].
  destruct (numeric 10 2 c) as [cost|] eqn:Ec; [|discriminate].
  destruct (numeric_null 5 2 _) as [margin|] eqn:Em; [|discriminate].
  destruct (generated_selling_price cost margin) as [sp|] eqn:Es; [|discriminate].
  intros H. injection H as <-. simpl. exact (built_typed _ _ _ _ _ Ec Em Es).
Qed.

(** *** Writing back what is stored *)

Lemma round_half_away_of_Z (q : Q) (k : Z) :
  q == inject_Z k -> round_half_away q = k.
Proof.
  intros H. pose proof (round_half_away_near q) as [Hlo Hhi].
  remember (round_half_away q) as r eqn:Er. clear Er.
  assert (H1 : inject_Z k - (1 # 2) <= inject_Z r) by lra.
  assert (H2 : inject_Z r <= inject_Z k + (1 # 2)) by lra.
  unfold Qle, Qminus, Qplus, Qopp, inject_Z in H1, H2. simpl in H1, H2. lia.
Qed.

Lemma round_scale_fixed (k : Z) :
  round_scale 2 (inject_Z k / pow10 2) = inject_Z k / pow10 2.
Proof.
  unfold round_scale at 1.
  rewrite (round_half_away_of_Z _ k); [reflexivity|].
  change (pow10 2) with 100. field.
Qed.

Lemma round_scale_idem (v : Q) :
  round_scale 2 (round_scale 2 v) = round_scale 2 v.
Proof. unfold round_scale at 2 3. apply round_scale_fixed. Qed.

Lemma numeric_fixed (p : nat) (v r : Q) :
  numeric p 2 v = Some r -> numeric p 2 r = Some r.
Proof.
  unfold numeric. destruct (Js.gt _ (Qabs (round_scale 2 v))) eqn:E;
    [|discriminate].
  intros H. injection H as <-. now rewrite round_scale_idem, E.
Qed.

Lemma built_settled (cost c : Q) (margin_in margin sp : option Q) :
  numeric 10 2 c = Some cost ->
  numeric_null 5 2 margin_in = Some margin ->
  generated_selling_price cost margin = Some sp ->
  numeric 10 2 cost = Some cost
  /\ numeric_null 5 2 margin = Some margin
  /\ generated_selling_price cost margin = Some sp.
Proof.
  intros Hc Hm Hs. split; [exact (numeric_fixed _ _ _ Hc)|].
  split; [|exact Hs].
  unfold numeric_null in *. destruct margin_in as [x|].
  - destruct (numeric 5 2 x) as [y|] eqn:E; [|discriminate].
    injection Hm as <-. now rewrite (numeric_fixed _ _ _ E).
  - now injection Hm as <-.
Qed.

Lemma build_row_settled (i : Insert) (r : Product) :
  build_row i = Some r -> settled_row r.
Proof.
  unfold build_row, settled_row.
  destruct (ins_selling_price i); [|discriminate].
  destruct (ins_cost_price i) as [c|]; [|discriminate].
  destruct (numeric 10 2 c) as [cost|] eqn:Ec; [|discriminate].
  destruct (numeric_null 5 2 _) as [margin|] eqn:Em; [|discriminate].
  destruct (generated_selling_price cost margin) as [sp|] eqn:Es; [|discriminate].
  intros H. injection H as <-. simpl. exact (built_settled _ _ _ _ _ Ec Em Es).
Qed.

Lemma update_row_settled (u : Update) (r r' : Product) :
  update_row u r = Some r' -> settled_row r'.
Proof.
  unfold update_row, settled_row.
  destruct (match upd_cost_price u with Some v => v | None => Some (cost_price r) end)
    as [c|]; [|discriminate].
  destruct (numeric 10 2 c) as [cost|] eqn:Ec; [|discriminate].
  destruct (numeric_null 5 2 _) as [margin|] eqn:Em; [|discriminate].
  destruct (generated_selling_price cost margin) as [sp|] eqn:Es; [|discriminate].
  intros H. injection H as <-. simpl. exact (built_settled _ _ _ _ _ Ec Em Es).
Qed.

Lemma touch_row (cond : Product -> bool) (sp : option unit) (r : Product) :
  settled_row r -> update_row (touch cond sp) r = Some r.
Proof.
  intros (Hc & Hm & Hs). unfold update_row, touch. simpl.
  rewrite Hc, Hm, Hs. destruct r; reflexivity.
Qed.

Lemma settled_at (log : list (Z * Triggers.Timed)) :
  Forall (fun r => settled_row (Triggers.columns r)) (Triggers.run_at log).
Proof.
  unfold Triggers.run_at.
  assert (G : forall table,
             Forall (fun r => settled_row (Triggers.columns r)) table ->
             Forall (fun r => settled_row (Triggers.columns r))
                    (fold_left Triggers.step_at log table)).
  { induction log as [|[now st] log IH]; intros table Hall; simpl; [exact Hall|].
    apply IH. unfold Triggers.step_at. simpl.
    destruct (Triggers.exec_at now st table) as [table'|] eqn:E; [|exact Hall].
    destruct st as [i created updated|cond u created updated|cond]; simpl in E.
    - destruct (existsb _ table); [discriminate|].
      destruct (build_row i) as [c|] eqn:Ec; [|discriminate].
      injection E as <-. apply Forall_app. split; [exact Hall|].
      constructor; [|constructor]. simpl. exact (build_row_settled _ _ Ec).
    - assert (U : Triggers.update_all now cond u created updated table
                  = Some table')
        by (destruct (upd_selling_price u) as [[|v]|]; congruence).
      clear E. revert table' U.
      induction Hall as [|r rest Hr Hrest IHr]; intros table' U; simpl in U.
      + injection U as <-. constructor.
      + destruct (Triggers.update_all now cond u created updated rest)
          as [rest'|]; [|discriminate].
        specialize (IHr rest' eq_refl).
        destruct (cond r).
        * unfold Triggers.update_stamped in U.
          destruct (update_row u (Triggers.columns r)) as [c|] eqn:Eu;
            [|discriminate].
          injection U as <-. constructor; [|exact IHr].
          simpl. exact (update_row_settled _ _ _ Eu).
        * injection U as <-. now constructor.
    - injection E as <-. apply Forall_forall. intros r Hr.
      apply filter_In in Hr as [Hr _].
      rewrite Forall_forall in Hall. now apply Hall. }
  apply G. constructor.
Qed.

Lemma touch_all (now : Z) (cond : Triggers.Stamped -> bool) (sp : option unit)
    (table : list Triggers.Stamped) :
  Forall (fun r => settled_row (Triggers.columns r)) table ->
  Triggers.update_all now cond (touch (fun r => true) sp) None None table
  = Some (map (Triggers.touched now cond) table).
Proof.
  induction 1 as [|r rest Hr _ IH]; simpl; [reflexivity|].
  rewrite IH. destruct (cond r) eqn:E.
  - unfold Triggers.update_stamped.
    rewrite (touch_row (fun r => true) sp (Triggers.columns r) Hr).
    do 2 f_equal. unfold Triggers.touched. rewrite E. reflexivity.
  - do 2 f_equal. unfold Triggers.touched. now rewrite E.
Qed.

(** X16.  On any table the statements can build, an update that sets no
    column, or only the selling price to DEFAULT, is accepted whichever rows
    it selects, and all it changes is [updated_at], which the trigger sets
    to the instant of the update on every selected row: the stored cost
    price and margin are stored again as they are, the selling price
    generated from them is the one already stored, [created_at] is kept, and
    the rows that are not selected are untouched. *)
Theorem X16_update_without_change (log : list (Z * Triggers.Timed)) (now : Z)
    (cond : Triggers.Stamped -> bool) (sp : option unit) :
  Triggers.exec_at now (Triggers.touch_where cond sp) (Triggers.run_at log)
  = Some (map (Triggers.touched now cond) (Triggers.run_at log))
  /\ (forall r,
        Triggers.columns (Triggers.touched now cond r) = Triggers.columns r
        /\ Triggers.created_at (Triggers.touched now cond r)
           = Triggers.created_at r
        /\ Triggers.updated_at (Triggers.touched now cond r)
           = if cond r then Some now else Triggers.updated_at r).
Proof.
  split.
  - pose proof (touch_all now cond sp _ (settled_at log)) as T.
    unfold Triggers.touch_where. simpl. destruct sp; exact T.
  - intros r. unfold Triggers.touched. destruct (cond r); simpl; auto.
Qed.

(** *** Selling price and cost price *)

Lemma two_decimals_le (kc ks : Z) :
  inject_Z kc / pow10 2 - (1 # 200) <= inject_Z ks / pow10 2 ->
  inject_Z kc / pow10 2 <= inject_Z ks / pow10 2.
Proof.
  change (pow10 2) with 100. intros H.
  assert (Ec : inject_Z kc / 100 == inject_Z kc * (1 # 100)) by field.
  assert (Es : inject_Z ks / 100 == inject_Z ks * (1 # 100)) by field.
  assert (H1 : inject_Z kc - (1 # 2) <= inject_Z ks) by lra.
  assert (Hz : (kc <= ks)%Z).
  { unfold Qle, Qminus, Qplus, Qopp, inject_Z in H1. simpl in H1. lia. }
  rewrite Zle_Qle in Hz. lra.
Qed.

(** X17.  On any table the statements can build, a product with a cost price
    and a margin that are not negative is never priced below its cost, and
    one with a margin that is not positive never above it; with the margin 0
    the selling price is the cost price. *)
Theorem X17_selling_price_against_cost (sts : list Statement)
    (r : Product) (m : Q) :
  In r (run sts) ->
  event_margin r = Some m ->
  0 <= cost_price r ->
  exists s,
    selling_price r = Some s
    /\ (0 <= m -> cost_price r <= s)
    /\ (m <= 0 -> s <= cost_price r)
    /\ (m == 0 -> s == cost_price r).
Proof.
  intros Hin Hm Hcost.
  assert (Hg : generated_row r).
  { apply generated_written_out.
    pose proof (fold_step_generated sts [] (Forall_nil _)) as H.
    rewrite Forall_forall in H. now apply H. }
  assert (Ht : typed_row r).
  { pose proof (run_invariant _ build_row_typed update_row_typed sts) as H.
    rewrite Forall_forall in H. now apply H. }
  unfold generated_row in Hg. rewrite Hm in Hg.
  destruct Hg as (s & Hs & Hround & Hlo & Hhi).
  destruct Ht as ([[kc Hkc] _] & _ & Hsp).
  destruct (Hsp s Hs) as [[ks Hks] _].
  exists s. split; [exact Hs|].
  assert (Em : m / 100 == m * (1 # 100)) by field.
  set (c := cost_price r) in *. set (e := m / 100) in *.
  assert (Hup : 0 <= m -> c <= s).
  { intros H0. assert (Hp : 0 <= c * e) by (apply Qmult_le_0_compat; lra).
    rewrite Hkc, Hks. apply two_decimals_le. rewrite <- Hkc, <- Hks. lra. }
  assert (Hdown : m <= 0 -> s <= c).
  { intros H0. assert (Hp : 0 <= c * - e) by (apply Qmult_le_0_compat; lra).
    rewrite Hkc, Hks. apply two_decimals_le. rewrite <- Hkc, <- Hks. lra. }
  split; [exact Hup|]. split; [exact Hdown|].
  intros H0. apply Qle_antisym; [apply Hdown | apply Hup]; lra.
Qed.

Lemma X17_selling_price_against_cost_witness :
  exists s,
    selling_price one_cent_row = Some s
    /\ cost_price one_cent_row <= s.
Proof.
  destruct (X17_selling_price_against_cost [INSERT Samples.one_cent_insert]
              one_cent_row (2000 # 100))
    as (s & Hs & Hup & _).
  - vm_compute. left. reflexivity.
  - reflexivity.
  - vm_compute. discriminate.
  - exists s. split; [exact Hs|]. apply Hup. vm_compute. discriminate.
Defined.

End SchemaFacts.

(* ------------------------------------------------------------------ *)
(** ** The figures after a stall is deleted *)

Module CascadeFacts.
Import Accounts Stated SumFacts Reconciliation Cascade.

Lemma set_null_type (sid : string) (p : Payment) :
  pay_payment_type (set_null sid p) = pay_payment_type p.
Proof. unfold set_null. destruct (stall_id_is _ sid); reflexivity. Qed.

Lemma set_null_amount (sid : string) (p : Payment) :
  pay_amount_paid (set_null sid p) = pay_amount_paid p.
Proof. unfold set_null. destruct (stall_id_is _ sid); reflexivity. Qed.

Lemma set_null_other_stall (sid sid' : string) (p : Payment) :
  sid' <> sid ->
  stall_id_is (pay_stall_id (set_null sid p)) sid'
  = stall_id_is (pay_stall_id p) sid'.
Proof.
  intros Hne. unfold set_null.
  destruct (stall_id_is (pay_stall_id p) sid) eqn:E; [|reflexivity].
  simpl. unfold stall_id_is in *.
  destruct (pay_stall_id p) as [s|]; [|reflexivity].
  apply String.eqb_eq in E. subst s. symmetry. now apply String.eqb_neq.
Qed.

Lemma set_null_forgets (sid : string) (p : Payment) :
  pay_stall_id (set_null sid p) <> Some sid.
Proof.
  unfold set_null. destruct (stall_id_is (pay_stall_id p) sid) eqn:E.
  - discriminate.
  - intros H. unfold stall_id_is in E. rewrite H in E.
    now rewrite String.eqb_refl in E.
Qed.

Lemma amounts_by_type_kept (sid : string) (f : payment_type -> bool)
    (ps : list Payment) :
  map pay_amount_paid
    (filter (fun p => f (pay_payment_type p)) (map (set_null sid) ps))
  = map pay_amount_paid (filter (fun p => f (pay_payment_type p)) ps).
Proof.
  induction ps as [|p l IH]; simpl; [reflexivity|].
  rewrite set_null_type. destruct (f (pay_payment_type p)); simpl.
  - now rewrite set_null_amount, IH.
  - exact IH.
Qed.

(** X18.  After a stall is deleted no stall, product, billing transaction or
    payment refers to it: its products and billing transactions are gone (the
    rows of the other stalls are all kept), and every payment is kept, with
    its type and amount, the payments of the stall without a stall. *)
Theorem X18_delete_stall_leaves_no_reference (sid : string) (db : Database) :
  (forall s, In s (db_stalls (delete_stall sid db))
             <-> In s (db_stalls db) /\ st_id s <> sid)
  /\ (forall p, In p (db_products (delete_stall sid db))
                <-> In p (db_products db) /\ Schema.stall_id p <> sid)
  /\ (forall t, In t (db_billing_transactions (delete_stall sid db))
                <-> In t (db_billing_transactions db) /\ bt_stall_id t <> sid)
  /\ (forall p, In p (db_payments (delete_stall sid db)) ->
                pay_stall_id p <> Some sid)
  /\ map pay_payment_type (db_payments (delete_stall sid db))
     = map pay_payment_type (db_payments db)
  /\ map pay_amount_paid (db_payments (delete_stall sid db))
     = map pay_amount_paid (db_payments db).
Proof.
  assert (F : forall (A : Type) (key : A -> string) (l : list A) (x : A),
             In x (filter (fun y => negb (String.eqb (key y) sid)) l)
             <-> In x l /\ key x <> sid).
  { intros A key l x. rewrite filter_In, negb_true_iff.
    split; intros [H1 H2]; (split; [exact H1|]); now apply String.eqb_neq. }
  simpl.
  split; [intros s; apply F|].
  split; [intros p; apply F|].
  split; [intros t; apply F|].
  split; [|split].
  - intros p Hp. apply in_map_iff in Hp as (q & <- & _). apply set_null_forgets.
  - rewrite map_map. apply map_ext. intros p. apply set_null_type.
  - rewrite map_map. apply map_ext. intros p. apply set_null_amount.
Qed.

Lemma other_stall_transactions (sid sid' : string) (txs : list BillingTransaction) :
  sid' <> sid ->
  stallTransactions sid'
    (filter (fun t => negb (String.eqb (bt_stall_id t) sid)) txs)
  = stallTransactions sid' txs.
Proof.
  intros Hne. unfold stallTransactions. induction txs as [|t l IH]; simpl.
  - reflexivity.
  - destruct (String.eqb_spec (bt_stall_id t) sid) as [E|E]; simpl.
    + destruct (String.eqb_spec (bt_stall_id t) sid') as [E'|E'];
        [congruence | exact IH].
    + now rewrite IH.
Qed.

Lemma other_stall_payments (sid sid' : string) (ps : list Payment) :
  sid' <> sid ->
  map pay_amount_paid (stallParticipantPayments sid' (map (set_null sid) ps))
  = map pay_amount_paid (stallParticipantPayments sid' ps).
Proof.
  intros Hne. unfold stallParticipantPayments.
  induction ps as [|p l IH]; simpl; [reflexivity|].
  rewrite (set_null_other_stall _ _ _ Hne), set_null_type.
  destruct (stall_id_is (pay_stall_id p) sid'
            && payment_type_eqb (pay_payment_type p) participant)%bool; simpl.
  - now rewrite set_null_amount, IH.
  - exact IH.
Qed.

(** X19.  Deleting a stall leaves the money paid out where it was: the
    stall payments total and the total paid are unchanged, and the billed
    amount, the bill balance, what was already paid, the remaining balance
    and the name of every other stall are the same as before. *)
Theorem X19_figures_after_delete_stall (sid : string) (db : Database) :
  stallPaymentsTotal (db_payments (delete_stall sid db))
  == stallPaymentsTotal (db_payments db)
  /\ totalPaid (db_payments (delete_stall sid db)) == totalPaid (db_payments db)
  /\ (forall sid' sts d,
        sid' <> sid ->
        selectedStallDetails sid' (db_billing_transactions db)
          (db_payments db) sts = Some d ->
        exists d',
          selectedStallDetails sid' (db_billing_transactions (delete_stall sid db))
            (db_payments (delete_stall sid db)) sts = Some d'
          /\ billedAmount d' = billedAmount d
          /\ billBalance d' = billBalance d
          /\ alreadyPaid d' == alreadyPaid d
          /\ remainingBalance d' == remainingBalance d
          /\ stallName d' = stallName d).
Proof.
  unfold delete_stall. cbn [db_payments db_billing_transactions].
  split; [|split].
  - unfold stallPaymentsTotal. rewrite !sumAmountPaid_sum.
    now rewrite (amounts_by_type_kept sid
                   (fun t => payment_type_eqb t participant)).
  - unfold totalPaid, otherPaymentsTotal. rewrite !sumAmountPaid_sum.
    now rewrite (amounts_by_type_kept sid (fun t => payment_type_eqb t other)).
  - intros sid' sts d Hne Hd.
    destruct (StallFacts.selected_inv _ _ _ _ _ Hd) as (Hid & _ & _ & _).
    rewrite (selected_some _ _ _ _ Hid) in Hd. injection Hd as <-.
    eexists. split; [apply (selected_some _ _ _ _ Hid)|]. simpl.
    rewrite (other_stall_transactions _ _ _ Hne).
    assert (Hp : sumAmountPaid
                   (stallParticipantPayments sid'
                      (map (set_null sid) (db_payments db)))
                 == sumAmountPaid (stallParticipantPayments sid' (db_payments db))).
    { rewrite !sumAmountPaid_sum. now rewrite (other_stall_payments _ _ _ Hne). }
    repeat split; try reflexivity; try exact Hp.
    unfold Js.max. apply Q.max_compat; [reflexivity|]. now rewrite Hp.
Qed.

Lemma X19_figures_after_delete_stall_witness :
  exists d',
    selectedStallDetails "S"
      (db_billing_transactions (delete_stall "T" sample_db))
      (db_payments (delete_stall "T" sample_db)) [Samples.stall_S] = Some d'
    /\ remainingBalance d' == 110.
Proof.
  destruct (X19_figures_after_delete_stall "T" sample_db)
    as (_ & _ & Hother).
  edestruct (Hother "S"%string [Samples.stall_S]) as (d' & Hd' & _ & _ & _ & Hr & _).
  - discriminate.
  - reflexivity.
  - exists d'. split; [exact Hd'|]. rewrite Hr. vm_compute. reflexivity.
Defined.

End CascadeFacts.

(* ------------------------------------------------------------------ *)
(** ** Submitting the stall enquiry form *)

Module EnquiryFacts.
Import Enquiry.

Lemma lookup_assign_same (k v : string) (rs : Responses) :
  lookup k (assign k v rs) = Some v.
Proof.
  induction rs as [|[k' v'] rest IH]; simpl.
  - now rewrite String.eqb_refl.
  - destruct (String.eqb_spec k' k) as [E|E]; simpl.
    + subst k'. now rewrite String.eqb_refl.
    + destruct (String.eqb_spec k' k); [contradiction | exact IH].
Qed.

Lemma lookup_assign_other (k k' v : string) (rs : Responses) :
  k' <> k -> lookup k' (assign k v rs) = lookup k' rs.
Proof.
  intros Hne. induction rs as [|[k0 v0] rest IH]; simpl.
  - destruct (String.eqb_spec k k'); [congruence | reflexivity].
  - destruct (String.eqb_spec k0 k) as [E|E]; simpl.
    + subst k0. destruct (String.eqb_spec k k'); [congruence | reflexivity].
    + now rewrite IH.
Qed.

Lemma blank_false (x : option string) :
  blank x = false <-> exists s, x = Some s /\ s <> EmptyString.
Proof.
  destruct x as [s|]; simpl.
  - destruct (String.eqb_spec s EmptyString) as [E|E]; split;
      try discriminate; try (intros _; reflexivity);
      try (intros _; now exists s).
    intros (t & Ht & Hne). congruence.
  - split; [discriminate | intros (s & Hs & _); discriminate].
Qed.

Lemma shown_iff (rs : Responses) (field : EnquiryField) :
  shouldShowField rs field = true
  <-> blank (show_conditional_on field) = true
      \/ exists key v, show_conditional_on field = Some key
                       /\ lookup key rs = Some v
                       /\ conditional_value field = Some v.
Proof.
  unfold shouldShowField.
  destruct (blank (show_conditional_on field)) eqn:B.
  - split; auto.
  - destruct (show_conditional_on field) as [key|]; [|discriminate].
    unfold strict_eq. split.
    + intros H. right.
      destruct (lookup key rs) as [a|] eqn:El; [|discriminate].
      destruct (conditional_value field) as [b|]; [|discriminate].
      apply String.eqb_eq in H. subst b. exists key, a. auto.
    + intros [H|(k & v & Hk & Hl & Hc)]; [discriminate|].
      injection Hk as <-. rewrite Hl, Hc. apply String.eqb_refl.
Qed.

(** X20.  Answering a field with a value shows the fields that depend on
    that field with that value and hides the ones that depend on it with
    another value (or with none); it changes neither the visibility of the
    fields that depend on other fields nor any other answer, so the answers
    of the fields it hides are kept. *)
Theorem X20_answer_and_visibility (k v : string) (rs : Responses)
    (field : EnquiryField) :
  lookup k (handleResponseChange k v rs) = Some v
  /\ (forall k', k' <> k ->
        lookup k' (handleResponseChange k v rs) = lookup k' rs)
  /\ (k <> EmptyString -> show_conditional_on field = Some k ->
      (shouldShowField (handleResponseChange k v rs) field = true
       <-> conditional_value field = Some v))
  /\ (show_conditional_on field <> Some k ->
      shouldShowField (handleResponseChange k v rs) field
      = shouldShowField rs field).
Proof.
  unfold handleResponseChange. split; [apply lookup_assign_same|].
  split; [intros k' Hne; now apply lookup_assign_other|]. split.
  - intros Hk Hc. unfold shouldShowField. rewrite Hc. simpl.
    destruct (String.eqb_spec k EmptyString); [contradiction|].
    rewrite lookup_assign_same. unfold strict_eq.
    destruct (conditional_value field) as [b|].
    + split.
      * intros H. apply String.eqb_eq in H. now subst b.
      * intros H. injection H as ->. apply String.eqb_refl.
    + split; discriminate.
  - intros Hne. unfold shouldShowField.
    destruct (show_conditional_on field) as [key|]; [|reflexivity].
    simpl. destruct (String.eqb key EmptyString); [reflexivity|].
    rewrite lookup_assign_other; [reflexivity|]. congruence.
Qed.

Lemma unanswered_false (rs : Responses) (field : EnquiryField) :
  unanswered rs field = false
  <-> (is_required field = true -> shouldShowField rs field = true ->
       exists s, lookup (id field) rs = Some s /\ s <> EmptyString).
Proof.
  unfold unanswered. rewrite <- blank_false.
  destruct (is_required field), (shouldShowField rs field),
    (blank (lookup (id field) rs)); simpl; split; auto; try discriminate.
Qed.

Lemma checkRequired_none (rs : Responses) (fields : list EnquiryField) :
  checkRequired rs fields = None
  <-> forall field, In field fields -> unanswered rs field = false.
Proof.
  induction fields as [|f l IH]; simpl.
  - split; [intros _ field [] | reflexivity].
  - destruct (unanswered rs f) eqn:E.
    + split; [discriminate|]. intros H.
      specialize (H f (or_introl eq_refl)). congruence.
    + rewrite IH. split.
      * intros H field [<-|Hin]; [exact E | now apply H].
      * intros H field Hin. apply H. now right.
Qed.

Lemma checkRequired_first (rs : Responses) (fields : list EnquiryField)
    (label : string) :
  checkRequired rs fields = Some label ->
  exists l1 field l2,
    fields = l1 ++ field :: l2
    /\ label = field_label field
    /\ unanswered rs field = true
    /\ Forall (fun f => unanswered rs f = false) l1.
Proof.
  induction fields as [|f l IH]; simpl; [discriminate|].
  destruct (unanswered rs f) eqn:E.
  - intros H. injection H as <-. exists [], f, l. auto.
  - intros H. destruct (IH H) as (l1 & field & l2 & -> & Hl & Hu & Hall).
    exists (f :: l1), field, l2. repeat split; auto.
Qed.

Section Submit.

Variable trim : string -> string.
Variable length : string -> nat.

(** X21.  The form is submitted exactly when the name and the mobile number
    are not blank, the mobile number has at least ten characters, a
    panchayath and a ward are chosen and every required field that is shown
    has an answer that is not empty: a required field that is hidden never
    holds the form back.  The row submitted holds the name and the mobile
    number as typed and all the answers, those of hidden fields too. *)
Theorem X21_submitted_exactly_when_complete
    (fields : list EnquiryField) (f : Form) :
  ((exists row, handleSubmit trim length fields f = Submit row)
   <-> trim (name f) <> EmptyString
       /\ trim (mobile f) <> EmptyString
       /\ (10 <= length (mobile f))%nat
       /\ selectedPanchayath f <> EmptyString
       /\ selectedWard f <> EmptyString
       /\ (forall field, In field fields ->
             is_required field = true ->
             shouldShowField (responses f) field = true ->
             exists s, lookup (id field) (responses f) = Some s
                       /\ s <> EmptyString))
  /\ (forall row, handleSubmit trim length fields f = Submit row ->
        row = {| row_name := name f;
                 row_mobile := mobile f;
                 row_panchayath_id := Some (selectedPanchayath f);
                 row_ward_id := Some (selectedWard f);
                 row_responses := responses f |}).
Proof.
  unfold handleSubmit.
  destruct (String.eqb_spec (trim (name f)) EmptyString) as [En|En].
  { split; [split|]; [intros [row H]; discriminate | tauto | discriminate]. }
  destruct (String.eqb_spec (trim (mobile f)) EmptyString) as [Em|Em]; simpl.
  { split; [split|]; [intros [row H]; discriminate | tauto | discriminate]. }
  destruct (Nat.ltb_spec (length (mobile f)) 10) as [El|El].
  { split; [split|]; [intros [row H]; discriminate | | discriminate].
    intros (_ & _ & H & _). lia. }
  destruct (String.eqb_spec (selectedPanchayath f) EmptyString) as [Ep|Ep].
  { split; [split|]; [intros [row H]; discriminate | tauto | discriminate]. }
  destruct (String.eqb_spec (selectedWard f) EmptyString) as [Ew|Ew].
  { split; [split|]; [intros [row H]; discriminate | tauto | discriminate]. }
  destruct (checkRequired (responses f) fields) as [label|] eqn:Ec.
  - split; [split|]; [intros [row H]; discriminate | | discriminate].
    intros (_ & _ & _ & _ & _ & H).
    assert (Hn : checkRequired (responses f) fields = None).
    { apply checkRequired_none. intros field Hin.
      apply unanswered_false. now apply H. }
    congruence.
  - assert (Hp : or_null (selectedPanchayath f) = Some (selectedPanchayath f)).
    { unfold or_null.
      destruct (String.eqb_spec (selectedPanchayath f) EmptyString);
        [contradiction | reflexivity]. }
    assert (Hw : or_null (selectedWard f) = Some (selectedWard f)).
    { unfold or_null.
      destruct (String.eqb_spec (selectedWard f) EmptyString);
        [contradiction | reflexivity]. }
    rewrite Hp, Hw. split; [split|].
    + intros _. repeat split; auto.
      intros field Hin. apply unanswered_false.
      now apply (proj1 (checkRequired_none _ _) Ec).
    + intros _. eexists. reflexivity.
    + intros row H. now injection H as <-.
Qed.

(** X22.  When the form asks for a field, that field is the first of the
    fields, in the order they are loaded, that is required, shown and
    without an answer; the form is then not submitted. *)
Theorem X22_first_unanswered_field_reported
    (fields : list EnquiryField) (f : Form) (label : string) :
  handleSubmit trim length fields f = AskField label ->
  exists l1 field l2,
    fields = l1 ++ field :: l2
    /\ label = field_label field
    /\ is_required field = true
    /\ shouldShowField (responses f) field = true
    /\ blank (lookup (id field) (responses f)) = true
    /\ Forall (fun g => unanswered (responses f) g = false) l1.
Proof.
  unfold handleSubmit.
  destruct (String.eqb (trim (name f)) EmptyString); [discriminate|].
  destruct (String.eqb (trim (mobile f)) EmptyString
            || Nat.ltb (length (mobile f)) 10)%bool; [discriminate|].
  destruct (String.eqb (selectedPanchayath f) EmptyString); [discriminate|].
  destruct (String.eqb (selectedWard f) EmptyString); [discriminate|].
  destruct (checkRequired (responses f) fields) as [l|] eqn:Ec; [|discriminate].
  intros H. injection H as ->.
  destruct (checkRequired_first _ _ _ Ec) as (l1 & field & l2 & Hf & Hl & Hu & Hall).
  exists l1, field, l2. unfold unanswered in Hu.
  apply andb_true_iff in Hu as [Hu Hb]. apply andb_true_iff in Hu as [Hr Hs].
  auto 10.
Qed.

End Submit.

Lemma X20_answer_and_visibility_witness :
  shouldShowField (handleResponseChange "f1" "yes" []) which_year = true
  <-> conditional_value which_year = Some "yes"%string.
Proof.
  apply (proj1 (proj2 (proj2 (X20_answer_and_visibility
                                "f1" "yes" [] which_year)))).
  - discriminate.
  - reflexivity.
Defined.

Lemma X22_first_unanswered_field_reported_witness :
  exists l1 field l2,
    [has_stall; which_year] = l1 ++ field :: l2
    /\ "Which year?"%string = field_label field
    /\ is_required field = true
    /\ shouldShowField (responses (sample_form [("f1", "yes")]%string)) field = true
    /\ blank (lookup (id field) (responses (sample_form [("f1", "yes")]%string)))
       = true
    /\ Forall (fun g => unanswered
                          (responses (sample_form [("f1", "yes")]%string)) g
                        = false) l1.
Proof.
  apply (X22_first_unanswered_field_reported (fun s => s) String.length
           [has_stall; which_year] (sample_form [("f1", "yes")]%string)).
  reflexivity.
Defined.

End EnquiryFacts.
